(** * PipeRPCPlugin: pipeline-parallel orchestration

    A shallow embedding of [pytorch_lightning/plugins/pipe_rpc_plugin.py].

    Python objects are records, attributes that may be absent are options,
    and every method is a computation in a state-and-exception monad whose
    state survives a raise (as the side effects of a Python call do).
    Collaborators that live outside the file (fairscale, torch, the parent
    plugin class, the checkpoint callback) are Section variables or small
    documented models of the calls the plugin makes. *)

From Stdlib Require Import QArith Ascii String.
From stdpp Require Import gmap strings list pretty.

Open Scope string_scope.
Open Scope list_scope.
Open Scope Z_scope.

Set Warnings "-register-all".

(** ** Exceptions and results *)

Inductive exn : Type :=
| MisconfigurationException (msg : string)
| AssertionError
| ZeroDivisionError
| TypeError
| AttributeError (attr : string)
| KeyError
| IndexError
| FileNotFoundError (path : string)
| UnpicklingError (path : string)
| LibraryError (msg : string).

Inductive result (A : Type) : Type :=
| Ok (a : A)
| Raise (e : exn).
Arguments Ok {A} a.
Arguments Raise {A} e.

Definition is_misconfiguration {A} (r : result A) : bool :=
  match r with Raise (MisconfigurationException _) => true | _ => false end.

(** ** The state-and-exception monad *)

Module PyM.
Definition M (S A : Type) : Type := S -> result A * S.

Definition ret {S A} (a : A) : M S A := fun s => (Ok a, s).
Definition raise {S A} (e : exn) : M S A := fun s => (Raise e, s).
Definition bind {S A B} (m : M S A) (k : A -> M S B) : M S B :=
  fun s => match m s with
           | (Ok a, s') => k a s'
           | (Raise e, s') => (Raise e, s')
           end.
Definition get {S} : M S S := fun s => (Ok s, s).
Definition modify {S} (f : S -> S) : M S unit := fun s => (Ok tt, f s).
(** A pure fallible expression evaluated inside a method. *)
Definition lift {S A} (r : result A) : M S A := fun s => (r, s).
End PyM.
Import PyM.

Notation "x <- m ;; k" := (bind m (fun x => k))
  (at level 100, m at next level, right associativity).
Notation "m ;;; k" := (bind m (fun _ => k))
  (at level 100, right associativity).

(** Python's [sum] over a list of ints. *)
Definition sum (l : list Z) : Z := foldr Z.add 0 l.

(** Python's true division of two ints.  The value is kept as the exact
    quotient; the float Python returns is its rounding. *)
Definition truediv (a b : Z) : result Q :=
  if b =? 0 then Raise ZeroDivisionError
  else Ok (Qmake (a * Z.sgn b) (Z.to_pos (Z.abs b))).

(** fairscale's [ensure_divisibility]:
    [assert numerator % denominator == 0]. *)
Definition ensure_divisibility (numerator denominator : Z) : result unit :=
  if denominator =? 0 then Raise ZeroDivisionError
  else if numerator mod denominator =? 0 then Ok tt
  else Raise AssertionError.

(** ['.' in name] *)
Fixpoint contains_dot (s : string) : bool :=
  match s with
  | EmptyString => false
  | String c s' => if Ascii.eqb c "."%char then true else contains_dot s'
  end.

Section PipeRPC.

(** [Params]: payload of a module (its own parameters and buffers).
    [PipeObj]: a LightningPipeModule, the pipeline-wrapped value of
    [layers].  [Closure]: an optimizer closure supplied by the training
    loop.  [Input]: the type of [example_input_array]. *)
Context {Params PipeObj Closure Input : Type}.

(** The payload of a freshly built, empty [nn.Sequential()]. *)
Variable no_params : Params.
(** [hasattr(nn.Sequential(), name)]: the attributes every sequential
    container has before any child is registered. *)
Variable sequential_attr : string -> bool.

(** ** Modules *)

(** An [nn.Module]: its payload and its ordered dict of named children. *)
Inductive Module : Type :=
| Mod (payload : Params) (kids : list (string * Module)).

Definition named_children (m : Module) : list (string * Module) :=
  match m with Mod _ kids => kids end.

Definition children (m : Module) : list Module := (named_children m).*2.

(** What a [layers] attribute may hold. *)
Inductive Layers : Type :=
| NNSequential (seq : Module)
| LightningPipeModule (pipe : PipeObj).

(** [getattr(pipe_balance, name)]: fairscale's balancing strategies,
    each taking the partition count, the layers and a sample input and
    returning a balance or failing with an error of its own. *)
Variable pipe_balance :
  string -> option (Z -> Layers -> Input -> string + list Z).

Record LightningModule : Type := {
  layers : option Layers;
  example_input_array : option Input;
  has_foreach_worker : bool  (* hasattr(model, "foreach_worker") *)
}.

Definition with_layers (l : option Layers) (m : LightningModule)
  : LightningModule :=
  {| layers := l;
     example_input_array := example_input_array m;
     has_foreach_worker := has_foreach_worker m |}.

(** ** Optimizers and workers *)

Inductive closure : Type :=
| UserClosure (c : Closure)
| do_nothing_optimizer_closure.

Record Optimizer : Type := {
  _optimizer_idx : nat;
  _closure : option Closure  (* the attribute may be missing *)
}.

(** One process of the model-parallel group: its global rank, the model
    local to it and the optimizers of that model's trainer. *)
Record Worker : Type := {
  rank : nat;
  local_model : Module;
  optimizers : list Optimizer
}.

Inductive File : Type :=
| Pickled (m : Module)
| Garbage.

Inductive Event : Type :=
| OptimizerStep (at_rank : nat) (optimizer : Optimizer) (c : closure)
| SaveModelFn (path : string) (seen : option Layers).

(** ** The plugin *)

Record PipeRPCPlugin : Type := {
  balance : option (list Z);
  num_partitions : option Z;
  microbatches : Z;
  checkpoint : string;
  balance_mode : string;
  pipelined_backward : option bool;
  main_rpc_process : bool;
  num_gpus_per_model : option nat;        (* set by init_model_parallel_groups *)
  _optimizers_map : option (gmap nat bool) (* set by on_after_setup_optimizers *)
}.

Record Trainer : Type := {
  automatic_optimization : bool;  (* trainer.train_loop.automatic_optimization *)
  amp_backend : option string;
  testing : bool;
  trainer_global_rank : Z;  (* trainer.global_rank *)
  trainer_optimizers : list Optimizer
}.

(** Everything outside the plugin object that its methods read or write. *)
Record Env : Type := {
  model : LightningModule;              (* trainer.get_model() *)
  pl_module : option LightningModule;   (* None: pl_module is trainer.get_model() *)
  owner : Worker;                       (* the calling process *)
  workers : list Worker;                (* the other shard holders *)
  fs : gmap string File;                (* the working directory *)
  dist_initialized : bool;              (* torch_distrib.is_initialized() *)
  cuda_device_count : Z;
  mpu_args : option (Q * Z)             (* arguments of mpu.initialize_model_parallel *)
}.

Record State : Type := {
  self : PipeRPCPlugin;
  env : Env;
  trace : list Event
}.

(** *** Field updates *)

Definition set_self (f : PipeRPCPlugin -> PipeRPCPlugin) (st : State) : State :=
  {| self := f (self st); env := env st; trace := trace st |}.
Definition set_env (f : Env -> Env) (st : State) : State :=
  {| self := self st; env := f (env st); trace := trace st |}.
Definition log_event (e : Event) (st : State) : State :=
  {| self := self st; env := env st; trace := trace st ++ [e] |}.

Definition with_balance (b : option (list Z)) (p : PipeRPCPlugin) : PipeRPCPlugin :=
  {| balance := b; num_partitions := num_partitions p;
     microbatches := microbatches p; checkpoint := checkpoint p;
     balance_mode := balance_mode p; pipelined_backward := pipelined_backward p;
     main_rpc_process := main_rpc_process p;
     num_gpus_per_model := num_gpus_per_model p;
     _optimizers_map := _optimizers_map p |}.
Definition with_main_rpc_process (b : bool) (p : PipeRPCPlugin) : PipeRPCPlugin :=
  {| balance := balance p; num_partitions := num_partitions p;
     microbatches := microbatches p; checkpoint := checkpoint p;
     balance_mode := balance_mode p; pipelined_backward := pipelined_backward p;
     main_rpc_process := b;
     num_gpus_per_model := num_gpus_per_model p;
     _optimizers_map := _optimizers_map p |}.
Definition with_num_gpus_per_model (n : nat) (p : PipeRPCPlugin) : PipeRPCPlugin :=
  {| balance := balance p; num_partitions := num_partitions p;
     microbatches := microbatches p; checkpoint := checkpoint p;
     balance_mode := balance_mode p; pipelined_backward := pipelined_backward p;
     main_rpc_process := main_rpc_process p;
     num_gpus_per_model := Some n;
     _optimizers_map := _optimizers_map p |}.
Definition with_optimizers_map (m : gmap nat bool) (p : PipeRPCPlugin) : PipeRPCPlugin :=
  {| balance := balance p; num_partitions := num_partitions p;
     microbatches := microbatches p; checkpoint := checkpoint p;
     balance_mode := balance_mode p; pipelined_backward := pipelined_backward p;
     main_rpc_process := main_rpc_process p;
     num_gpus_per_model := num_gpus_per_model p;
     _optimizers_map := Some m |}.

Definition with_model (m : LightningModule) (e : Env) : Env :=
  {| model := m; pl_module := pl_module e; owner := owner e;
     workers := workers e; fs := fs e;
     dist_initialized := dist_initialized e;
     cuda_device_count := cuda_device_count e; mpu_args := mpu_args e |}.
Definition with_pl_module (m : option LightningModule) (e : Env) : Env :=
  {| model := model e; pl_module := m; owner := owner e;
     workers := workers e; fs := fs e;
     dist_initialized := dist_initialized e;
     cuda_device_count := cuda_device_count e; mpu_args := mpu_args e |}.
Definition with_fs (f : gmap string File) (e : Env) : Env :=
  {| model := model e; pl_module := pl_module e; owner := owner e;
     workers := workers e; fs := f;
     dist_initialized := dist_initialized e;
     cuda_device_count := cuda_device_count e; mpu_args := mpu_args e |}.
Definition with_mpu_args (a : Q * Z) (e : Env) : Env :=
  {| model := model e; pl_module := pl_module e; owner := owner e;
     workers := workers e; fs := fs e;
     dist_initialized := dist_initialized e;
     cuda_device_count := cuda_device_count e; mpu_args := Some a |}.

Abbreviation Py := (M State).

(** ** Construction *)

(** [PipeRPCPlugin.__init__]; the parent constructor only stores its
    keyword arguments. *)
Definition __init__ (balance : option (list Z)) (num_partitions : option Z)
    (microbatches : Z) (checkpoint balance_mode : string)
    (pipelined_backward : option bool) : result PipeRPCPlugin :=
  match balance with
  | None =>
      Raise (MisconfigurationException
        ("Please, provide a balance for your model. "
         +:+ "Example: nn.Sequential(torch.nn.Linear(32, 32), nn.ReLU(), nn.Linear(32, 2)) contains 3 layers. "
         +:+ "A possible balance between 2 gpus is [2, 1]"))
  | Some _ =>
      Ok {| balance := balance; num_partitions := num_partitions;
            microbatches := microbatches; checkpoint := checkpoint;
            balance_mode := balance_mode;
            pipelined_backward := pipelined_backward;
            main_rpc_process := false;
            num_gpus_per_model := None;
            _optimizers_map := None |}
  end.

(** ** Balance validation *)

(** [self.balance] used as a list: [sum] and [len] raise on [None]. *)
Definition the_balance : Py (list Z) :=
  st <- get ;;
  match balance (self st) with
  | Some b => ret b
  | None => raise TypeError
  end.

(** [len(model.layers)] *)
Definition len_layers (m : LightningModule) : result nat :=
  match layers m with
  | None => Raise (AttributeError "layers")
  | Some (NNSequential seq) => Ok (length (named_children seq))
  | Some (LightningPipeModule _) => Raise TypeError
  end.

Definition balance_mismatch_message (s : Z) (n : nat) : string :=
  "The provided balance sum: " +:+ pretty s
    +:+ " doesn t match your Sequential length: " +:+ pretty n.

Definition _assert_valid_model_balance : Py unit :=
  st <- get ;;
  let model := model (env st) in
  b <- the_balance ;;
  n <- lift (len_layers model) ;;
  if bool_decide (sum b ≠ Z.of_nat n) then
    raise (MisconfigurationException (balance_mismatch_message (sum b) n))
  else ret tt.

(** ** Process topology *)

Definition init_model_parallel_groups (world_size : Z) : Py unit :=
  b <- the_balance ;;
  let n := length b in
  modify (set_self (with_num_gpus_per_model n)) ;;;
  lift (ensure_divisibility world_size (Z.of_nat n)) ;;;
  num_model_parallel <- lift (truediv (Z.of_nat n) world_size) ;;
  (* mpu.initialize_model_parallel(num_model_parallel, world_size) *)
  modify (set_env (with_mpu_args (num_model_parallel, world_size))).

Definition set_main_rpc_process (global_rank : Z) : Py unit :=
  modify (set_self (with_main_rpc_process (bool_decide (global_rank ≠ 0)))).

Definition is_main_rpc_process (p : PipeRPCPlugin) : bool :=
  main_rpc_process p.

(** ** Connection setup *)

Definition _infer_model_balance : Py (list Z) :=
  st <- get ;;
  let model := model (env st) in
  let partitions :=
    match num_partitions (self st) with
    | None => cuda_device_count (env st)
    | Some n => n
    end in
  match example_input_array model with
  | None =>
      raise (MisconfigurationException
        "Please set example_input_array to your model, so we can infer the right model balance for you")
  | Some example =>
      match pipe_balance (balance_mode (self st)) with
      | None => raise (AttributeError (balance_mode (self st)))
      | Some balance_func =>
          match layers model with
          | None => raise (AttributeError "layers")
          | Some l =>
              match balance_func partitions l example with
              | inl msg => raise (LibraryError msg)
              | inr b => ret b
              end
          end
      end
  end.

Definition sequential_model_missing : exn :=
  MisconfigurationException
    ("Could not find a PipeLightningModule within the model. "
     +:+ "Did you defined set your sequential model as an `layers` attribute of your model ?").

Definition _check_sequential_model_exists : Py unit :=
  st <- get ;;
  match layers (model (env st)) with
  | Some (NNSequential _) => ret tt
  | _ => raise sequential_model_missing
  end.

Definition _check_manual_optimization (trainer : Trainer) : Py unit :=
  if automatic_optimization trainer then
    raise (MisconfigurationException
      "PipeRPCPlugin is currently not supported in automatic optimization")
  else if bool_decide (amp_backend trainer ≠ None) then
    raise (MisconfigurationException
      "PipeRPCPlugin is currently not supported in Automatic Mixed Precision")
  else ret tt.

Definition _skip_init_connections (trainer : Trainer) : Py bool :=
  st <- get ;;
  if dist_initialized (env st) && testing trainer then ret true else ret false.

(** The two calls into the parent class [RPCPlugin]. *)
Variable super_init_distributed_connection :
  Trainer -> Z -> Z -> bool -> Py unit.
Variable super_init_rpc_connection : Z -> Z -> Py unit.

Definition init_distributed_connection (trainer : Trainer)
    (global_rank world_size : Z) (is_slurm_managing_tasks : bool) : Py unit :=
  _check_manual_optimization trainer ;;;
  skip <- _skip_init_connections trainer ;;
  (if negb skip then
     super_init_distributed_connection trainer global_rank world_size
       is_slurm_managing_tasks ;;;
     super_init_rpc_connection global_rank world_size ;;;
     init_model_parallel_groups world_size ;;;
     st <- get ;;
     if main_rpc_process (self st) then
       _check_sequential_model_exists ;;;
       st <- get ;;
       (match balance (self st) with
        | None =>
            b <- _infer_model_balance ;;
            modify (set_self (with_balance (Some b)))
        | Some _ => ret tt
        end) ;;;
       _assert_valid_model_balance
     else ret tt
   else ret tt) ;;;
  set_main_rpc_process (trainer_global_rank trainer).

(** ** Cross-process worker invocation *)

(** Runs [fn] on every remote worker.  The calls are dispatched to all of
    them before any result is awaited, so a failing worker does not stop
    the later ones; the failures are returned in rank order.  The callbacks
    of this plugin touch data of their own worker and files named after
    its rank, so they are run here one after the other. *)
Fixpoint dispatch (fn : Worker -> Py unit) (ws : list Worker)
  : State -> list exn * State :=
  fun st =>
    match ws with
    | [] => ([], st)
    | w :: ws' =>
        let '(r, st1) := fn w st in
        let '(es, st2) := dispatch fn ws' st1 in
        (match r with Ok _ => es | Raise e => e :: es end, st2)
    end.

(** fairscale's [foreach_worker(callback, ctx, include_self)]: the remote
    workers first, then, if asked for, the calling process itself; the
    first remote failure is raised in the caller.  The context is already
    applied to [fn]. *)
Definition foreach_worker (fn : Worker -> Py unit) (include_self : bool)
  : Py unit :=
  fun st =>
    let '(es, st1) := dispatch fn (workers (env st)) st in
    match es with
    | e :: _ => (Raise e, st1)
    | [] => if include_self then fn (owner (env st1)) st1 else (Ok tt, st1)
    end.

(** [model.foreach_worker(...)]: the attribute has to exist. *)
Definition model_foreach_worker (fn : Worker -> Py unit) (include_self : bool)
  : Py unit :=
  st <- get ;;
  if has_foreach_worker (model (env st)) then foreach_worker fn include_self
  else raise (AttributeError "foreach_worker").

(** ** Optimizer coordination *)

(** [{opt_idx: False for opt_idx, opt in enumerate(trainer.optimizers)}] *)
Definition on_after_setup_optimizers (trainer : Trainer) : Py unit :=
  modify (set_self (with_optimizers_map
    (list_to_map (imap (fun opt_idx _ => (opt_idx, false))
                       (trainer_optimizers trainer))))).

(** [optimizer.step(closure=...)] on the process of rank [r]. *)
Definition step (r : nat) (optimizer : Optimizer) (c : closure) : Py unit :=
  modify (log_event (OptimizerStep r optimizer c)).

(** [getattr(optimizer, "_closure", do_nothing_optimizer_closure)] *)
Definition getattr_closure (optimizer : Optimizer) : closure :=
  match _closure optimizer with
  | Some c => UserClosure c
  | None => do_nothing_optimizer_closure
  end.

(** [run_optimizer(ctx, model)] on the worker [w], with
    [ctx = {"opt_idx": opt_idx}]. *)
Definition run_optimizer (opt_idx : nat) (w : Worker) : Py unit :=
  match optimizers w !! opt_idx with
  | None => raise IndexError
  | Some optimizer =>
      let closure := getattr_closure optimizer in
      step (rank w) optimizer closure
  end.

Definition _optimizer_step (opt_idx : nat) : Py unit :=
  model_foreach_worker (run_optimizer opt_idx) false.

Definition the_optimizers_map : Py (gmap nat bool) :=
  st <- get ;;
  match _optimizers_map (self st) with
  | Some m => ret m
  | None => raise (AttributeError "_optimizers_map")
  end.

(** [optimizer_step(is_master_rpc_process, model, optimizer, closure)]:
    the first argument is not read, and [model] is the model of the
    environment. *)
Definition optimizer_step (optimizer : Optimizer) (closure : Closure)
  : Py bool :=
  let opt_idx := _optimizer_idx optimizer in
  m <- the_optimizers_map ;;
  match m !! opt_idx with
  | None => raise KeyError
  | Some b =>
      modify (set_self (with_optimizers_map (<[opt_idx := negb b]> m))) ;;;
      if negb b then
        st <- get ;;
        step (rank (owner (env st))) optimizer (UserClosure closure) ;;;
        _optimizer_step opt_idx ;;;
        ret true
      else ret false
  end.

(** ** Distributed checkpointing *)

(** [f"seq_{rank}.pt"] *)
Definition shard_file (rank : nat) : string :=
  "seq_" +:+ pretty rank +:+ ".pt".

(** [torch.save] and [torch.load] on the working directory: a saved
    module is read back as it was written. *)
Definition torch_save (m : Module) (path : string) : Py unit :=
  modify (set_env (fun e => with_fs (<[path := Pickled m]> (fs e)) e)).

Definition torch_load (path : string) : Py Module :=
  st <- get ;;
  match fs (env st) !! path with
  | None => raise (FileNotFoundError path)
  | Some Garbage => raise (UnpicklingError path)
  | Some (Pickled m) => ret m
  end.

Definition os_remove (path : string) : Py unit :=
  st <- get ;;
  match fs (env st) !! path with
  | None => raise (FileNotFoundError path)
  | Some _ => modify (set_env (fun e => with_fs (delete path (fs e)) e))
  end.

(** A list comprehension whose element expression has effects. *)
Fixpoint comprehension {A B} (f : A -> Py B) (l : list A) : Py (list B) :=
  match l with
  | [] => ret []
  | a :: l' => b <- f a ;; bs <- comprehension f l' ;; ret (b :: bs)
  end.

(** [d[k] = v] on an ordered dict: an existing key keeps its place. *)
Fixpoint od_set {V} (k : string) (v : V) (d : list (string * V))
  : list (string * V) :=
  match d with
  | [] => [(k, v)]
  | (k', v') :: d' =>
      if bool_decide (k = k') then (k, v) :: d' else (k', v') :: od_set k v d'
  end.

(** [nn.Module.add_module] on a sequential container. *)
Definition add_module (name : string) (child : Module) (seq : Module)
  : result Module :=
  if sequential_attr name && negb (bool_decide (name ∈ (named_children seq).*1))
  then Raise KeyError
  else if contains_dot name then Raise KeyError
  else if bool_decide (name = "") then Raise KeyError
  else match seq with
       | Mod payload kids => Ok (Mod payload (od_set name child kids))
       end.

Fixpoint add_modules (kids : list (string * Module)) (seq : Module)
  : result Module :=
  match kids with
  | [] => Ok seq
  | (name, child) :: kids' =>
      match add_module name child seq with
      | Ok seq' => add_modules kids' seq'
      | Raise e => Raise e
      end
  end.

Fixpoint add_all (partial_seqs : list Module) (seq : Module) : result Module :=
  match partial_seqs with
  | [] => Ok seq
  | p_seq :: rest =>
      match add_modules (named_children p_seq) seq with
      | Ok seq' => add_all rest seq'
      | Raise e => Raise e
      end
  end.

(** [save(ctx, model)] on the worker [w], whose [torch_distrib.get_rank()]
    is [rank w]. *)
Definition save (num_gpus_per_model : nat) (w : Worker) : Py unit :=
  let rank := rank w in
  if bool_decide (rank < num_gpus_per_model)%nat then
    match children (local_model w) with
    | [] => raise IndexError
    | seq :: _ => torch_save seq (shard_file rank)
    end
  else ret tt.

Definition reload_sequential (num_gpus_per_model : nat) : Py Module :=
  partial_seqs <-
    comprehension (fun rank => torch_load (shard_file rank))
                  (List.seq 0 num_gpus_per_model) ;;
  seq <- lift (add_all partial_seqs (Mod no_params [])) ;;
  (* delete tmp files *)
  comprehension (fun rank => os_remove (shard_file rank))
                (List.seq 0 num_gpus_per_model) ;;;
  ret seq.

(** *** The [layers] attribute of [pl_module] *)

Definition the_pl_module (e : Env) : LightningModule :=
  match pl_module e with
  | None => model e
  | Some m => m
  end.

Definition update_pl_module (f : LightningModule -> LightningModule)
    (e : Env) : Env :=
  match pl_module e with
  | None => with_model (f (model e)) e
  | Some m => with_pl_module (Some (f m)) e
  end.

Definition get_pl_layers : Py Layers :=
  st <- get ;;
  match layers (the_pl_module (env st)) with
  | Some l => ret l
  | None => raise (AttributeError "layers")
  end.

Definition set_pl_layers (l : Layers) : Py unit :=
  modify (set_env (update_pl_module (with_layers (Some l)))).

Definition del_pl_layers : Py unit :=
  get_pl_layers ;;;
  modify (set_env (update_pl_module (with_layers None))).

(** The call of the checkpoint callback, recorded in the trace together
    with the layers the callback is shown. *)
Definition call_save_model_fn
    (save_model_fn : string -> M Env unit) (last_filepath : string)
  : Py unit :=
  st <- get ;;
  modify (log_event
    (SaveModelFn last_filepath (layers (the_pl_module (env st))))) ;;;
  (fun st => let '(r, e') := save_model_fn last_filepath (env st) in
             (r, set_env (fun _ => e') st)).

Definition the_num_gpus_per_model : Py nat :=
  st <- get ;;
  match num_gpus_per_model (self st) with
  | Some n => ret n
  | None => raise (AttributeError "num_gpus_per_model")
  end.

(** [rpc_save_model(save_model_fn, last_filepath, trainer, pl_module)]; the
    callback may change the environment in any way and may raise. *)
Definition rpc_save_model (save_model_fn : string -> M Env unit)
    (last_filepath : string) : Py unit :=
  st <- get ;;
  if has_foreach_worker (model (env st)) then
    current_layers <- get_pl_layers ;;
    n <- the_num_gpus_per_model ;;
    foreach_worker (save n) true ;;;
    n <- the_num_gpus_per_model ;;
    seq <- reload_sequential n ;;
    set_pl_layers (NNSequential seq) ;;;
    call_save_model_fn save_model_fn last_filepath ;;;
    del_pl_layers ;;;
    set_pl_layers current_layers
  else ret tt.

(** ** Vocabulary of the statements *)

(** [ev] is the step a remote worker [w] performs when told to step the
    optimizer number [opt_idx]: on its own optimizer, with the closure
    attached to it, or the no-op closure when none is attached. *)
Definition remote_step (opt_idx : nat) (w : Worker) (ev : Event) : Prop :=
  exists o,
    optimizers w !! opt_idx = Some o /\
    ev = OptimizerStep (rank w) o
           (match _closure o with
            | Some c => UserClosure c
            | None => do_nothing_optimizer_closure
            end).

(** A name [add_module] accepts on a container that has no child of
    that name yet. *)
Definition registrable (name : string) : Prop :=
  sequential_attr name = false /\ contains_dot name = false /\ name ≠ "".

(** The file of rank [r] holds a module whose named children are [shard]. *)
Definition shard_on_disk (files : gmap string File) (r : nat)
    (shard : list (string * Module)) : Prop :=
  exists seq,
    files !! shard_file r = Some (Pickled seq) /\ named_children seq = shard.

(** If the rank of [w] is one of the shard numbers, the first child of its
    local model is that shard. *)
Definition holds_shard (shards : list (list (string * Module))) (w : Worker)
  : Prop :=
  forall shard,
    shards !! rank w = Some shard ->
    exists seq,
      head (children (local_model w)) = Some seq /\
      named_children seq = shard.

(** The state [st] with the working directory replaced. *)
Definition put_fs (files : gmap string File) (st : State) : State :=
  set_env (with_fs files) st.

(** Every remote worker has an optimizer number [opt_idx]. *)
Definition workers_have_optimizer (opt_idx : nat) (st : State) : Prop :=
  Forall (fun w => is_Some (optimizers w !! opt_idx)) (workers (env st)).

End PipeRPC.

(** ** Wrapping the sequential model *)

(** [LightningPipeModule.get_worker_map], with [world_size] the value of
    [torch_distrib.get_world_size()]:
    [{rank: f"worker{rank}" for rank in range(world_size)}]. *)
Definition get_worker_map (world_size : nat) : gmap nat string :=
  list_to_map ((fun rank => (rank, "worker" +:+ pretty rank)) <$> seq 0 world_size).

(** fairscale's [PipelineStyle]. *)
Inductive PipelineStyle : Type :=
| SingleProcess
| MultiProcess
| AsyncSchedule.

Section Wrap.

(** [Engine]: the object the pipeline engine class returns. *)
Context {Params Closure Input Engine : Type}.

(** The keyword arguments of the call [pipe_cls(...)] in [_init_pipe]. *)
Record PipeArgs : Type := {
  arg_module : Module (Params := Params);
  arg_balance : option (list Z);
  arg_chunks : Z;
  arg_style : PipelineStyle;
  arg_input_device : nat;             (* torch.device("cuda", rank) *)
  arg_worker_map : gmap nat string;
  arg_checkpoint : string
}.

(** The attributes of a [LightningPipeModule] object. *)
Record PipeModule : Type := {
  lpm_module : Engine;
  lpm_balance : option (list Z);
  lpm_microbatches : Z;
  lpm_checkpoint : string
}.

(** The engine class handed over as [pipe_cls] ([PipeRPCWrapper]): it
    builds the engine object or fails with an error of its own. *)
Variable pipe_cls : PipeArgs -> string + Engine.
(** [torch_distrib.get_world_size()] *)
Variable world_size : nat.

Abbreviation WState :=
  (State (Params := Params) (PipeObj := PipeModule) (Closure := Closure)
     (Input := Input)).

(** [LightningPipeModule.__init__] followed by [_init_pipe], on the process
    of rank [rank]. *)
Definition _init_pipe (module : Module) (balance : option (list Z))
    (microbatches : Z) (checkpoint : string) (rank : nat)
  : result PipeModule :=
  match pipe_cls {| arg_module := module; arg_balance := balance;
                    arg_chunks := microbatches; arg_style := MultiProcess;
                    arg_input_device := rank;
                    arg_worker_map := get_worker_map world_size;
                    arg_checkpoint := checkpoint |} with
  | inl msg => Raise (LibraryError msg)
  | inr engine =>
      Ok {| lpm_module := engine; lpm_balance := balance;
            lpm_microbatches := microbatches; lpm_checkpoint := checkpoint |}
  end.

(** [_find_pipe_module(model)] on the model of the environment.  Of the
    attributes it sets on the model, [layers] and [foreach_worker] are the
    ones the state keeps. *)
Definition _find_pipe_module : M WState unit :=
  st <- get ;;
  match layers (model (env st)) with
  | Some (NNSequential seq) =>
      pipe <- lift (_init_pipe seq (balance (self st)) (microbatches (self st))
                      (checkpoint (self st)) (rank (owner (env st)))) ;;
      modify (set_env (fun e =>
        with_model {| layers := Some (LightningPipeModule pipe);
                      example_input_array := example_input_array (model e);
                      has_foreach_worker := true |} e))
  | _ => raise sequential_model_missing
  end.

End Wrap.

(** ** A concrete deployment

    A three-layer sequential model split with balance [2, 1] over two
    processes, used to run the definitions on explicit inputs. *)

Module Scenario.

Definition SModule : Type := Module (Params := Z).
Definition SLayers : Type := Layers (Params := Z) (PipeObj := nat).
Definition SOptimizer : Type := Optimizer (Closure := nat).
Definition SWorker : Type := Worker (Params := Z) (Closure := nat).
Definition SEnv : Type :=
  Env (Params := Z) (PipeObj := nat) (Closure := nat) (Input := Z).
Definition SState : Type :=
  State (Params := Z) (PipeObj := nat) (Closure := nat) (Input := Z).

Definition leaf (p : Z) : SModule := Mod p [].

Definition original : list (string * SModule) :=
  [("0", leaf 10); ("1", leaf 11); ("2", leaf 12)].

Definition four_layers : list (string * SModule) :=
  original ++ [("3", leaf 13)].

Definition shards : list (list (string * SModule)) :=
  [[("0", leaf 10); ("1", leaf 11)]; [("2", leaf 12)]].

Definition plugin : PipeRPCPlugin :=
  {| balance := Some [2; 1]; num_partitions := None; microbatches := 8;
     checkpoint := "except_last"; balance_mode := "balance_by_size";
     pipelined_backward := Some true; main_rpc_process := false;
     num_gpus_per_model := Some 2%nat;
     _optimizers_map := Some {[ 0%nat := false ]} |}.

Definition optimizer0 : SOptimizer :=
  {| _optimizer_idx := 0; _closure := Some 7%nat |}.
Definition optimizer1 : SOptimizer :=
  {| _optimizer_idx := 0; _closure := None |}.

(** The process of rank [r], holding the partition [kids]. *)
Definition worker (r : nat) (kids : list (string * SModule))
    (o : SOptimizer) : SWorker :=
  {| rank := r; local_model := Mod 0 [("partition", Mod 0 kids)];
     optimizers := [o] |}.

Definition environment (l : SLayers) (files : gmap string File) : SEnv :=
  {| model := {| layers := Some l; example_input_array := Some 1;
                 has_foreach_worker := true |};
     pl_module := None;
     owner := worker 0 [("0", leaf 10); ("1", leaf 11)] optimizer0;
     workers := [worker 1 [("2", leaf 12)] optimizer1];
     fs := files; dist_initialized := false; cuda_device_count := 2;
     mpu_args := None |}.

(** Before the wrap: [layers] is the user's sequential model. *)
Definition unwrapped : SState :=
  {| self := plugin; env := environment (NNSequential (Mod 0 original)) ∅;
     trace := [] |}.

Definition unwrapped_four : SState :=
  {| self := plugin; env := environment (NNSequential (Mod 0 four_layers)) ∅;
     trace := [] |}.

(** After the wrap: [layers] is the pipeline object number 1. *)
Definition wrapped : SState :=
  {| self := plugin; env := environment (LightningPipeModule 1%nat) ∅;
     trace := [] |}.

(** The same, seen from a working directory that the second stage does
    not write to. *)
Definition lone_owner : SState :=
  {| self := plugin;
     env := {| model := model (env wrapped); pl_module := None;
               owner := owner (env wrapped); workers := [];
               fs := ∅; dist_initialized := false; cuda_device_count := 2;
               mpu_args := None |};
     trace := [] |}.

(** A module that was never wrapped: it has no [foreach_worker]. *)
Definition not_pipelined : SState :=
  {| self := plugin;
     env := {| model := {| layers := Some (NNSequential (Mod 0 original));
                           example_input_array := None;
                           has_foreach_worker := false |};
               pl_module := None;
               owner := owner (env wrapped); workers := [];
               fs := ∅; dist_initialized := false; cuda_device_count := 2;
               mpu_args := None |};
     trace := [] |}.

Definition sequential_attr (name : string) : bool :=
  bool_decide (name ∈ ["forward"; "training"; "add_module"; "_modules"]).

(** A checkpoint callback that writes the file it is asked to write. *)
Definition write_checkpoint (path : string) : M SEnv unit :=
  fun e =>
    match layers (the_pl_module e) with
    | Some (NNSequential seq) =>
        (Ok tt, with_fs (<[path := Pickled seq]> (fs e)) e)
    | _ => (Raise TypeError, e)
    end.

(** The trainer of the deployment: manual optimization, no mixed
    precision, one optimizer. *)
Definition trainer : Trainer :=
  {| automatic_optimization := false; amp_backend := None; testing := false;
     trainer_global_rank := 0; trainer_optimizers := [optimizer0] |}.

Definition trainer_automatic : Trainer (Closure := nat) :=
  {| automatic_optimization := true; amp_backend := None; testing := false;
     trainer_global_rank := 0; trainer_optimizers := [optimizer0] |}.

Definition trainer_testing (r : Z) : Trainer (Closure := nat) :=
  {| automatic_optimization := false; amp_backend := None; testing := true;
     trainer_global_rank := r; trainer_optimizers := [optimizer0] |}.

(** No balancing strategy is known. *)
Definition no_strategy (name : string)
  : option (Z -> SLayers -> Z -> string + list Z) := None.

(** Parent-class calls that bring the connection up and return. *)
Definition super_init_distributed_connection (t : Trainer (Closure := nat))
    (global_rank world_size : Z) (slurm : bool) : M SState unit :=
  modify (set_env (fun e =>
    {| model := model e; pl_module := pl_module e; owner := owner e;
       workers := workers e; fs := fs e; dist_initialized := true;
       cuda_device_count := cuda_device_count e; mpu_args := mpu_args e |})).
Definition super_init_rpc_connection (global_rank world_size : Z)
  : M SState unit := ret tt.

(** The plugin object with its flag set and with the balance removed. *)
Definition flagged (st : SState) : SState :=
  set_self (with_main_rpc_process true) st.
Definition without_balance (st : SState) : SState :=
  set_self (with_balance None) st.
(** The same process with the distributed connection already up. *)
Definition connected (st : SState) : SState :=
  snd (super_init_distributed_connection trainer 0 2 true st).


(** The second replica of the pipeline: its two processes have the global
    ranks 2 and 3. *)
Definition second_replica : SState :=
  {| self := plugin;
     env := {| model := model (env wrapped); pl_module := None;
               owner := worker 2 [("0", leaf 10); ("1", leaf 11)] optimizer0;
               workers := [worker 3 [("2", leaf 12)] optimizer1];
               fs := ∅; dist_initialized := false; cuda_device_count := 2;
               mpu_args := None |};
     trace := [] |}.

(** A checkpoint callback that fails without touching anything. *)
Definition failing_checkpoint (path : string) : M SEnv unit :=
  fun e => (Raise (LibraryError "disk full"), e).

(** An engine class that accepts every request and returns the number of
    workers it was given. *)
Definition pipe_cls (args : PipeArgs (Params := Z)) : string + nat :=
  inr (size (arg_worker_map args)).

(** The deployment before the wrap, with the attributes of the wrapper
    spelled out. *)
Definition to_wrap
  : State (Params := Z) (PipeObj := PipeModule (Engine := nat))
      (Closure := nat) (Input := Z) :=
  {| self := plugin;
     env := {| model := {| layers := Some (NNSequential (Mod 0 original));
                           example_input_array := Some 1;
                           has_foreach_worker := false |};
               pl_module := None;
               owner := worker 0 [("0", leaf 10); ("1", leaf 11)] optimizer0;
               workers := [worker 1 [("2", leaf 12)] optimizer1];
               fs := ∅; dist_initialized := true; cuda_device_count := 2;
               mpu_args := None |};
     trace := [] |}.

(** The deployment with each stage numbering its own layers from zero, so
    that both shards have a child named "0". *)
Definition renumbered : SState :=
  {| self := plugin;
     env := {| model := model (env wrapped); pl_module := None;
               owner := worker 0 [("0", leaf 10); ("1", leaf 11)] optimizer0;
               workers := [worker 1 [("0", leaf 12)] optimizer1];
               fs := ∅; dist_initialized := false; cuda_device_count := 2;
               mpu_args := None |};
     trace := [] |}.

(** The deployment in a directory that holds a log file. *)
Definition with_log : SState :=
  put_fs {[ "train.log" := Garbage ]} wrapped.

(** An optimizer the trainer does not know. *)
Definition stray_optimizer : SOptimizer :=
  {| _optimizer_idx := 3; _closure := None |}.

End Scenario.

(** * Properties *)

Section Properties.

Context {Params PipeObj Closure Input : Type}.

Local Abbreviation State := (State (Params := Params) (PipeObj := PipeObj)
                               (Closure := Closure) (Input := Input)).
Local Abbreviation Module := (Module (Params := Params)).
Local Abbreviation Layers := (Layers (Params := Params) (PipeObj := PipeObj)).
Local Abbreviation Env := (Env (Params := Params) (PipeObj := PipeObj)
                             (Closure := Closure) (Input := Input)).
Local Abbreviation Worker := (Worker (Params := Params) (Closure := Closure)).
Local Abbreviation Optimizer := (Optimizer (Closure := Closure)).
Local Abbreviation File := (File (Params := Params)).
Local Abbreviation Trainer := (Trainer (Closure := Closure)).

(** ** Balance validation *)

(** C2: with a balance [B] and a sequential model of [L] layers, the
    validation passes exactly when [sum B = L]; otherwise it raises a
    configuration error whose message carries both the sum and [L]. *)
Theorem assert_valid_model_balance_spec (st : State) (B : list Z) (seq : Module) :
  balance (self st) = Some B ->
  layers (model (env st)) = Some (NNSequential seq) ->
  let L := length (named_children seq) in
  (_assert_valid_model_balance st = (Ok tt, st) <-> sum B = Z.of_nat L) /\
  (sum B ≠ Z.of_nat L ->
   _assert_valid_model_balance st =
     (Raise (MisconfigurationException
               ("The provided balance sum: " +:+ pretty (sum B)
                +:+ " doesn t match your Sequential length: " +:+ pretty L)),
      st)).
Proof.
  intros Hb Hl L.
  unfold _assert_valid_model_balance, the_balance, len_layers, bind, get, lift.
  rewrite Hb, Hl. cbn -[pretty].
  fold L. unfold balance_mismatch_message.
  case_bool_decide as Hne; cbn -[pretty]; split.
  - split; [discriminate | contradiction].
  - reflexivity.
  - split; [intros _; exact Hne | reflexivity].
  - intros Hne'. contradiction.
Qed.

(** ** Process topology *)

(** The divisibility check of the topology initialisation: a world size
    that is no multiple of the balance length is rejected. *)
Lemma init_model_parallel_groups_indivisible (st : State) (B : list Z) (W : Z) :
  balance (self st) = Some B ->
  B ≠ [] ->
  W mod Z.of_nat (length B) ≠ 0 ->
  fst (init_model_parallel_groups W st) = Raise AssertionError.
Proof.
  intros Hb Hne Hmod.
  unfold init_model_parallel_groups, the_balance, bind, get, lift, modify.
  rewrite Hb. cbn. unfold ensure_divisibility.
  destruct (Z.eqb_spec (Z.of_nat (length B)) 0) as [H0|H0].
  - destruct B; [contradiction | cbn in H0; lia].
  - destruct (Z.eqb_spec (W mod Z.of_nat (length B)) 0); [contradiction|].
    reflexivity.
Qed.

(** When the check passes, the value handed to
    [mpu.initialize_model_parallel] is the balance length divided by the
    world size. *)
Lemma init_model_parallel_groups_ratio (st : State) (B : list Z) (W : Z) :
  balance (self st) = Some B ->
  B ≠ [] ->
  W ≠ 0 ->
  W mod Z.of_nat (length B) = 0 ->
  exists st' q,
    init_model_parallel_groups W st = (Ok tt, st') /\
    mpu_args (env st') = Some (q, W) /\
    Qeq (q * inject_Z W) (inject_Z (Z.of_nat (length B))) /\
    num_gpus_per_model (self st') = Some (length B).
Proof.
  intros Hb Hne HW Hmod.
  unfold init_model_parallel_groups, the_balance, bind, get, lift, modify.
  rewrite Hb. cbn. unfold ensure_divisibility, truediv.
  destruct (Z.eqb_spec (Z.of_nat (length B)) 0) as [H0|H0].
  { destruct B; [contradiction | cbn in H0; lia]. }
  rewrite Hmod. cbn.
  destruct (Z.eqb_spec W 0) as [|_]; [contradiction|].
  eexists _, _. split; [reflexivity|]. cbn. split; [reflexivity|].
  split; [|reflexivity].
  unfold Qeq, Qmult, inject_Z. cbn.
  rewrite Pos.mul_1_r, Z2Pos.id by lia.
  pose proof (Z.abs_sgn W) as Habs. lia.
Qed.

(** The flag set by [set_main_rpc_process]. *)
Lemma set_main_rpc_process_flag (st : State) (global_rank : Z) :
  exists st',
    set_main_rpc_process global_rank st = (Ok tt, st') /\
    is_main_rpc_process (self st') = bool_decide (global_rank ≠ 0).
Proof. eexists. split; reflexivity. Qed.

(** C4: at the lowest rank the main-RPC-process flag comes out false, and
    at rank 1 it comes out true. *)
Theorem set_main_rpc_process_rank_zero (st : State) :
  is_main_rpc_process (self (snd (set_main_rpc_process 0 st))) = false /\
  is_main_rpc_process (self (snd (set_main_rpc_process 1 st))) = true.
Proof. split; reflexivity. Qed.

(** ** Balance inference *)

Variable pipe_balance :
  string -> option (Z -> Layers -> Input -> string + list Z).

(** The inference raises a configuration error exactly when the model has
    no example input. *)
Lemma infer_model_balance_misconfiguration (st : State) :
  is_misconfiguration (fst (_infer_model_balance pipe_balance st)) = true
  <-> example_input_array (model (env st)) = None.
Proof.
  unfold _infer_model_balance, bind, get, raise, ret. cbn.
  destruct (example_input_array (model (env st))) as [x|]; cbn.
  - split; [|discriminate].
    destruct (pipe_balance _) as [f|]; cbn; [|discriminate].
    destruct (layers _) as [l|]; cbn; [|discriminate].
    destruct (f _ l x); cbn; discriminate.
  - split; reflexivity.
Qed.

(** C5 (amended): without an explicit balance the constructor itself
    raises a configuration error, so no plugin exists whose balance could
    be inferred at connection setup; a plugin that is constructed keeps
    the balance it was given; and the inference routine raises a
    configuration error exactly when the model has no example input. *)
Theorem missing_balance_rejected_by_constructor :
  (forall num_partitions microbatches checkpoint balance_mode pipelined_backward,
      is_misconfiguration
        (__init__ None num_partitions microbatches checkpoint balance_mode
                  pipelined_backward) = true) /\
  (forall b num_partitions microbatches checkpoint balance_mode
          pipelined_backward p,
      __init__ b num_partitions microbatches checkpoint balance_mode
               pipelined_backward = Ok p ->
      b ≠ None /\ balance p = b /\ main_rpc_process p = false) /\
  (forall st : State,
      is_misconfiguration (fst (_infer_model_balance pipe_balance st)) = true
      <-> example_input_array (model (env st)) = None).
Proof.
  split; [|split].
  - reflexivity.
  - intros [b|] ? ? ? ? ? p H; cbn in H; [|discriminate].
    injection H as <-. repeat split. discriminate.
  - apply infer_model_balance_misconfiguration.
Qed.

(** ** Connection setup *)

Lemma bind_keeps {A B} (P : State -> Prop) (m : M State A) (k : A -> M State B) :
  (forall s, P s -> P (snd (m s))) ->
  (forall a s, P s -> P (snd (k a s))) ->
  forall s, P s -> P (snd (bind m k s)).
Proof.
  intros Hm Hk s Hs. unfold bind. specialize (Hm s Hs).
  destruct (m s) as [[a|e] s']; cbn in *; [by apply Hk|done].
Qed.

Lemma init_model_parallel_groups_keeps_balance (world_size : Z) (b : list Z)
    (st : State) :
  balance (self st) = Some b ->
  balance (self (snd (init_model_parallel_groups world_size st))) = Some b.
Proof.
  intros Hb.
  unfold init_model_parallel_groups, the_balance, bind, get, modify, lift.
  rewrite Hb. cbn.
  destruct (ensure_divisibility _ _); [|exact Hb].
  destruct (truediv _ _); exact Hb.
Qed.

Variable super_init_distributed_connection :
  Trainer -> Z -> Z -> bool -> M State unit.
Variable super_init_rpc_connection : Z -> Z -> M State unit.

(** Connection setup never replaces a balance that is there: as long as the
    two calls into the parent class leave the plugin object alone, the
    inference branch is not taken. *)
Lemma init_distributed_connection_keeps_balance (trainer : Trainer)
    (global_rank world_size : Z) (is_slurm_managing_tasks : bool)
    (b : list Z) (st : State) :
  (forall s, self (snd (super_init_distributed_connection trainer global_rank
                          world_size is_slurm_managing_tasks s)) = self s) ->
  (forall s, self (snd (super_init_rpc_connection global_rank world_size s))
             = self s) ->
  balance (self st) = Some b ->
  balance (self (snd (init_distributed_connection pipe_balance
                        super_init_distributed_connection
                        super_init_rpc_connection trainer global_rank
                        world_size is_slurm_managing_tasks st))) = Some b.
Proof.
  intros Hsuper1 Hsuper2. revert st. unfold init_distributed_connection.
  apply (bind_keeps (fun s => balance (self s) = Some b)).
  { intros s Hs. unfold _check_manual_optimization.
    destruct (automatic_optimization trainer); [exact Hs|].
    case_bool_decide; exact Hs. }
  intros _. apply (bind_keeps (fun s => balance (self s) = Some b)).
  { intros s Hs. unfold _skip_init_connections, bind, get.
    destruct (_ && _); exact Hs. }
  intros skip. apply (bind_keeps (fun s => balance (self s) = Some b));
    [|intros _ s Hs; exact Hs].
  destruct skip; cbn [negb]; [intros s Hs; exact Hs|].
  apply (bind_keeps (fun s => balance (self s) = Some b));
    [intros s Hs; by rewrite Hsuper1|].
  intros _. apply (bind_keeps (fun s => balance (self s) = Some b));
    [intros s Hs; by rewrite Hsuper2|].
  intros _. apply (bind_keeps (fun s => balance (self s) = Some b));
    [intros s Hs; by apply init_model_parallel_groups_keeps_balance|].
  intros _ s Hs. unfold bind at 1, get.
  destruct (main_rpc_process (self s)); [|exact Hs].
  revert s Hs. apply (bind_keeps (fun s => balance (self s) = Some b)).
  { intros s Hs. unfold _check_sequential_model_exists, bind, get.
    destruct (layers (model (env s))) as [[]|]; exact Hs. }
  intros _ s Hs. unfold bind at 1, get. rewrite Hs.
  unfold bind at 1, ret.
  unfold _assert_valid_model_balance, the_balance, bind, get, lift.
  rewrite Hs. cbn. destruct (len_layers _); [|exact Hs].
  case_bool_decide; exact Hs.
Qed.

(** ** Optimizer coordination *)

Lemma toggles_lookup {A} (key : nat -> nat) (l : list A) (i : nat) :
  (i < length l)%nat ->
  (list_to_map (imap (fun j _ => (key j, false)) l) : gmap nat bool)
    !! key i = Some false.
Proof.
  revert key i. induction l as [|x l IH]; intros key i Hi; cbn in Hi; [lia|].
  cbn. destruct (decide (key 0%nat = key i)) as [Heq|Hne].
  - rewrite Heq. apply lookup_insert_eq.
  - rewrite lookup_insert_ne by exact Hne.
    destruct i as [|i]; [done|].
    apply (IH (key ∘ S) i). lia.
Qed.

(** Attaching the optimizers sets the toggle of every optimizer index to
    false. *)
Lemma on_after_setup_optimizers_false (trainer : Trainer) (st : State)
    (opt_idx : nat) :
  (opt_idx < length (trainer_optimizers trainer))%nat ->
  exists st' m,
    on_after_setup_optimizers trainer st = (Ok tt, st') /\
    _optimizers_map (self st') = Some m /\
    m !! opt_idx = Some false.
Proof.
  intros Hlt. eexists _, _. split; [reflexivity|]. split; [reflexivity|].
  apply (toggles_lookup (fun j => j)), Hlt.
Qed.

Lemma dispatch_run_optimizer (opt_idx : nat) (ws : list Worker) (st : State) :
  Forall (fun w => is_Some (optimizers w !! opt_idx)) ws ->
  exists remote,
    dispatch (run_optimizer opt_idx) ws st =
      ([], {| self := self st; env := env st; trace := trace st ++ remote |}) /\
    Forall2 (remote_step opt_idx) ws remote.
Proof.
  intros Hall. revert st.
  induction Hall as [|w ws [o Ho] _ IH]; intros st.
  - exists []. cbn. rewrite app_nil_r. destruct st; split; [reflexivity|constructor].
  - cbn. unfold run_optimizer at 1. rewrite Ho.
    unfold step, modify, log_event.
    destruct (IH {| self := self st; env := env st;
                    trace := trace st ++
                      [OptimizerStep (rank w) o (getattr_closure o)] |})
      as (remote & -> & Hremote).
    eexists (_ :: remote). cbn. rewrite <- app_assoc. split; [reflexivity|].
    constructor; [|exact Hremote].
    exists o. split; [exact Ho|reflexivity].
Qed.

(** The call that finds the toggle set: it clears the toggle and does
    nothing else. *)
Lemma optimizer_step_deferred (st : State) (optimizer : Optimizer)
    (closure : Closure) (m : gmap nat bool) :
  _optimizers_map (self st) = Some m ->
  m !! _optimizer_idx optimizer = Some true ->
  optimizer_step optimizer closure st =
    (Ok false,
     set_self (with_optimizers_map (<[_optimizer_idx optimizer := false]> m)) st).
Proof.
  intros Hm Hi.
  unfold optimizer_step, the_optimizers_map, bind, get, modify.
  rewrite Hm. cbn. rewrite Hi. reflexivity.
Qed.

(** The call that finds the toggle clear: it sets the toggle, steps the
    local optimizer and has every remote worker step its own. *)
Lemma optimizer_step_performed (st : State) (optimizer : Optimizer)
    (closure : Closure) (m : gmap nat bool) :
  _optimizers_map (self st) = Some m ->
  m !! _optimizer_idx optimizer = Some false ->
  has_foreach_worker (model (env st)) = true ->
  workers_have_optimizer (_optimizer_idx optimizer) st ->
  exists remote,
    optimizer_step optimizer closure st =
      (Ok true,
       {| self := with_optimizers_map
                    (<[_optimizer_idx optimizer := true]> m) (self st);
          env := env st;
          trace := trace st ++
            OptimizerStep (rank (owner (env st))) optimizer (UserClosure closure)
            :: remote |}) /\
    Forall2 (remote_step (_optimizer_idx optimizer)) (workers (env st)) remote.
Proof.
  intros Hm Hi Hfw Hall.
  unfold optimizer_step, the_optimizers_map, bind, get, modify.
  rewrite Hm. cbn. rewrite Hi. cbn.
  unfold _optimizer_step, model_foreach_worker, bind, get. cbn.
  rewrite Hfw. unfold foreach_worker. cbn.
  edestruct (dispatch_run_optimizer (_optimizer_idx optimizer)
               (workers (env st))) as (remote & -> & Hremote); [exact Hall|].
  exists remote. cbn. rewrite <- app_assoc. split; [reflexivity|exact Hremote].
Qed.

(** C6: a call that flips the toggle to false steps nothing and returns
    false; a call that flips it to true runs the local step with the
    given closure and then one step on every remote worker and on no
    other process, each with the closure attached to that worker's
    optimizer or with the no-op closure, and returns true. *)
Theorem optimizer_step_spec (st : State) (optimizer : Optimizer)
    (closure : Closure) (m : gmap nat bool) :
  let opt_idx := _optimizer_idx optimizer in
  _optimizers_map (self st) = Some m ->
  (m !! opt_idx = Some true ->
   exists st',
     optimizer_step optimizer closure st = (Ok false, st') /\
     _optimizers_map (self st') = Some (<[opt_idx := false]> m) /\
     trace st' = trace st /\ env st' = env st) /\
  (m !! opt_idx = Some false ->
   has_foreach_worker (model (env st)) = true ->
   workers_have_optimizer opt_idx st ->
   exists st' remote,
     optimizer_step optimizer closure st = (Ok true, st') /\
     _optimizers_map (self st') = Some (<[opt_idx := true]> m) /\
     trace st' =
       trace st ++
       OptimizerStep (rank (owner (env st))) optimizer (UserClosure closure)
       :: remote /\
     Forall2 (remote_step opt_idx) (workers (env st)) remote).
Proof.
  intros opt_idx Hm. split.
  - intros Hi. eexists. split.
    + apply (optimizer_step_deferred st optimizer closure m Hm Hi).
    + repeat split.
  - intros Hi Hfw Hall.
    destruct (optimizer_step_performed st optimizer closure m Hm Hi Hfw Hall)
      as (remote & Hrun & Hremote).
    eexists _, remote. split; [exact Hrun|]. repeat split. exact Hremote.
Qed.

(** C3 (amended): starting from a false toggle, the first of two
    consecutive calls on an index performs the step (the local one, and
    one on each remote worker) and returns true, the second performs none
    and returns false, and the toggle map is then what it was. *)
Theorem optimizer_toggle_law (st : State) (o1 o2 : Optimizer)
    (c1 c2 : Closure) (m : gmap nat bool) :
  _optimizer_idx o2 = _optimizer_idx o1 ->
  _optimizers_map (self st) = Some m ->
  m !! _optimizer_idx o1 = Some false ->
  has_foreach_worker (model (env st)) = true ->
  workers_have_optimizer (_optimizer_idx o1) st ->
  exists st1 st2 remote,
    optimizer_step o1 c1 st = (Ok true, st1) /\
    optimizer_step o2 c2 st1 = (Ok false, st2) /\
    trace st1 =
      trace st ++
      OptimizerStep (rank (owner (env st))) o1 (UserClosure c1) :: remote /\
    length remote = length (workers (env st)) /\
    trace st2 = trace st1 /\
    _optimizers_map (self st2) = Some m.
Proof.
  intros Hidx Hm Hi Hfw Hall.
  destruct (optimizer_step_performed st o1 c1 m Hm Hi Hfw Hall)
    as (remote & Hrun & Hremote).
  eexists _, _, remote. split; [exact Hrun|]. split.
  - apply (optimizer_step_deferred _ o2 c2 (<[_optimizer_idx o1 := true]> m)).
    + reflexivity.
    + rewrite Hidx. apply lookup_insert_eq.
  - cbn. split; [reflexivity|]. split.
    + symmetry. eapply Forall2_length, Hremote.
    + split; [reflexivity|]. rewrite Hidx, insert_insert_eq.
      f_equal. apply insert_id, Hi.
Qed.

(** ** Distributed checkpointing *)

Variable no_params : Params.
Variable sequential_attr : string -> bool.

Local Abbreviation registrable := (registrable sequential_attr).

(** *** File names *)

Lemma list_ascii_of_string_app (s t : string) :
  list_ascii_of_string (s +:+ t) =
  list_ascii_of_string s ++ list_ascii_of_string t.
Proof. induction s as [|c s IH]; simpl; [reflexivity | by f_equal]. Qed.

Lemma string_app_inv_tail (s1 s2 t : string) :
  s1 +:+ t = s2 +:+ t -> s1 = s2.
Proof.
  intros H. apply (f_equal list_ascii_of_string) in H.
  rewrite !list_ascii_of_string_app in H. apply app_inv_tail in H.
  rewrite <- (string_of_list_ascii_of_string s1),
          <- (string_of_list_ascii_of_string s2).
  by rewrite H.
Qed.

Lemma shard_file_inj (r1 r2 : nat) : shard_file r1 = shard_file r2 -> r1 = r2.
Proof.
  unfold shard_file. intros H.
  apply (inj (String.app "seq_")) in H.
  apply string_app_inv_tail in H.
  by apply (inj pretty) in H.
Qed.

(** *** Frame facts *)

Lemma put_fs_id (st : State) : put_fs (fs (env st)) st = st.
Proof. by destruct st as [p [] t]. Qed.

Lemma layers_update_pl_module (l : option Layers) (e : Env) :
  layers (the_pl_module (update_pl_module (with_layers l) e)) = l.
Proof.
  unfold the_pl_module, update_pl_module.
  destruct (pl_module e) eqn:E; cbn; [|rewrite E]; reflexivity.
Qed.

Lemma save_frame (n : nat) (w : Worker) (st : State) :
  exists files, snd (save n w st) = put_fs files st.
Proof.
  unfold save. case_bool_decide.
  - destruct (children (local_model w)); cbn.
    + exists (fs (env st)). by rewrite put_fs_id.
    + eexists. reflexivity.
  - exists (fs (env st)). by rewrite put_fs_id.
Qed.

Lemma dispatch_save_frame (n : nat) (ws : list Worker) (st : State) :
  exists files, snd (dispatch (save n) ws st) = put_fs files st.
Proof.
  revert st. induction ws as [|w ws IH]; intros st; cbn.
  - exists (fs (env st)). by rewrite put_fs_id.
  - destruct (save_frame n w st) as [f1 H1].
    destruct (save n w st) as [r st1]. cbn in H1. subst st1.
    destruct (IH (put_fs f1 st)) as [f2 H2].
    destruct (dispatch (save n) ws (put_fs f1 st)) as [es st2].
    cbn in H2. subst st2. by exists f2.
Qed.

Lemma foreach_worker_save_frame (n : nat) (include_self : bool) (st : State) :
  exists files, snd (foreach_worker (save n) include_self st) = put_fs files st.
Proof.
  unfold foreach_worker.
  destruct (dispatch_save_frame n (workers (env st)) st) as [f1 H1].
  destruct (dispatch (save n) (workers (env st)) st) as [es st1].
  cbn in H1. subst st1.
  destruct es as [|e es]; [|by exists f1].
  destruct include_self; [|by exists f1].
  destruct (save_frame n (owner (env (put_fs f1 st))) (put_fs f1 st))
    as [f2 H2].
  rewrite H2. by exists f2.
Qed.

Lemma torch_load_state (path : string) (st : State) :
  snd (torch_load path st) = st.
Proof.
  unfold torch_load, bind, get.
  by destruct (fs (env st) !! path) as [[]|].
Qed.

Lemma bind_ok_inv {S A B} (m : M S A) (k : A -> M S B) s b s' :
  bind m k s = (Ok b, s') ->
  exists a s1, m s = (Ok a, s1) /\ k a s1 = (Ok b, s').
Proof.
  unfold bind. destruct (m s) as [[a|e] s1]; [|discriminate].
  intros H. by exists a, s1.
Qed.

(** *** Rebuilding the sequential module *)

Lemma od_set_fresh {V} (k : string) (v : V) (d : list (string * V)) :
  k ∉ d.*1 -> od_set k v d = d ++ [(k, v)].
Proof.
  induction d as [|[k' v'] d IH]; cbn; intros Hk; [reflexivity|].
  apply not_elem_of_cons in Hk as [Hne Hk].
  rewrite bool_decide_eq_false_2 by exact Hne.
  by rewrite IH.
Qed.

Lemma add_module_fresh (name : string) (child : Module) (payload : Params)
    (kids : list (string * Module)) :
  registrable name ->
  name ∉ kids.*1 ->
  add_module sequential_attr name child (Mod payload kids) =
    Ok (Mod payload (kids ++ [(name, child)])).
Proof.
  intros (Hattr & Hdot & Hne) Hfresh. unfold add_module.
  rewrite Hattr, Hdot. cbn.
  rewrite bool_decide_eq_false_2 by exact Hne.
  by rewrite od_set_fresh.
Qed.

Lemma add_modules_app (new : list (string * Module)) (payload : Params)
    (kids : list (string * Module)) :
  NoDup (kids ++ new).*1 ->
  Forall registrable new.*1 ->
  add_modules sequential_attr new (Mod payload kids) =
    Ok (Mod payload (kids ++ new)).
Proof.
  revert kids. induction new as [|[name child] new IH]; intros kids Hnd Hreg.
  - cbn. by rewrite app_nil_r.
  - cbn [add_modules]. apply Forall_cons in Hreg as [Hname Hreg].
    rewrite cons_middle, app_assoc in Hnd |- *.
    rewrite add_module_fresh.
    + apply IH; assumption.
    + exact Hname.
    + rewrite fmap_app, fmap_app in Hnd.
      apply NoDup_app in Hnd as [Hnd _].
      apply NoDup_app in Hnd as (_ & Hdisj & _).
      intros Hin. apply (Hdisj name Hin). cbn. apply list_elem_of_here.
Qed.

Lemma add_all_concat (ms : list Module) (payload : Params)
    (kids : list (string * Module)) :
  NoDup (kids ++ concat (named_children <$> ms)).*1 ->
  Forall registrable (concat (named_children <$> ms)).*1 ->
  add_all sequential_attr ms (Mod payload kids) =
    Ok (Mod payload (kids ++ concat (named_children <$> ms))).
Proof.
  revert kids. induction ms as [|m ms IH]; intros kids Hnd Hreg.
  - cbn. by rewrite app_nil_r.
  - cbn [add_all fmap list_fmap concat] in *.
    rewrite app_assoc in Hnd |- *.
    rewrite fmap_app in Hreg. apply Forall_app in Hreg as [Hm Hms].
    rewrite add_modules_app.
    + apply IH; assumption.
    + rewrite fmap_app in Hnd. by apply NoDup_app in Hnd as [Hnd _].
    + exact Hm.
Qed.

(** *** Saving the shards *)

Lemma save_conforming (shards : list (list (string * Module)))
    (w : Worker) (st : State) :
  holds_shard shards w ->
  exists files,
    save (length shards) w st = (Ok tt, put_fs files st) /\
    forall r shard,
      shards !! r = Some shard ->
      shard_on_disk (fs (env st)) r shard \/ rank w = r ->
      shard_on_disk files r shard.
Proof.
  intros Hw. unfold save. case_bool_decide as Hlt.
  - destruct (lookup_lt_is_Some_2 shards (rank w) Hlt) as [mine Hmine].
    destruct (Hw mine Hmine) as (seq & Hhead & Hseq).
    destruct (children (local_model w)) as [|c cs]; [discriminate|].
    injection Hhead as ->.
    eexists. split; [reflexivity|].
    intros r shard Hr [(seq' & Hfile & Hseq')| <-].
    + destruct (decide (r = rank w)) as [->|Hne].
      * exists seq. rewrite lookup_insert_eq. split; [reflexivity|congruence].
      * exists seq'. rewrite lookup_insert_ne; [done|].
        intros Heq. apply shard_file_inj in Heq. congruence.
    + exists seq. rewrite lookup_insert_eq. split; [reflexivity|congruence].
  - exists (fs (env st)). rewrite put_fs_id. split; [reflexivity|].
    intros r shard Hr [H| <-]; [exact H|].
    apply lookup_lt_Some in Hr. lia.
Qed.

Lemma dispatch_save_conforming (shards : list (list (string * Module)))
    (ws : list Worker) (st : State) :
  Forall (holds_shard shards) ws ->
  exists files,
    dispatch (save (length shards)) ws st = ([], put_fs files st) /\
    forall r shard,
      shards !! r = Some shard ->
      shard_on_disk (fs (env st)) r shard \/ (exists w, w ∈ ws /\ rank w = r) ->
      shard_on_disk files r shard.
Proof.
  intros Hall. revert st. induction Hall as [|w ws Hw _ IH]; intros st.
  - exists (fs (env st)). cbn. rewrite put_fs_id. split; [reflexivity|].
    intros r shard _ [H|(w & Hin & _)]; [exact H|]. by apply elem_of_nil in Hin.
  - destruct (save_conforming shards w st Hw) as (f1 & Hsave & H1).
    destruct (IH (put_fs f1 st)) as (f2 & Hrest & H2).
    exists f2. cbn [dispatch]. rewrite Hsave, Hrest. split; [reflexivity|].
    intros r shard Hr Hsrc. apply (H2 r shard Hr).
    destruct Hsrc as [H|(w' & Hin & Hrank)].
    + left. apply (H1 r shard Hr). by left.
    + apply elem_of_cons in Hin as [->|Hin].
      * left. apply (H1 r shard Hr). by right.
      * right. by exists w'.
Qed.

Lemma foreach_worker_save_conforming
    (shards : list (list (string * Module))) (st : State) :
  Forall (holds_shard shards) (workers (env st) ++ [owner (env st)]) ->
  exists files,
    foreach_worker (save (length shards)) true st = (Ok tt, put_fs files st) /\
    forall r shard,
      shards !! r = Some shard ->
      (exists w, w ∈ workers (env st) ++ [owner (env st)] /\ rank w = r) ->
      shard_on_disk files r shard.
Proof.
  intros Hall. apply Forall_app in Hall as [Hws Hown].
  rewrite Forall_singleton in Hown.
  destruct (dispatch_save_conforming shards (workers (env st)) st Hws)
    as (f1 & Hdisp & H1).
  destruct (save_conforming shards (owner (env st)) (put_fs f1 st) Hown)
    as (f2 & Hsave & H2).
  exists f2. unfold foreach_worker. rewrite Hdisp. cbn [owner env put_fs set_env with_fs].
  split; [exact Hsave|].
  intros r shard Hr (w & Hin & Hrank). apply (H2 r shard Hr).
  apply elem_of_app in Hin as [Hin|Hin].
  - left. apply (H1 r shard Hr). right. by exists w.
  - apply list_elem_of_singleton in Hin as ->. by right.
Qed.

(** *** Loading and removing the shard files *)

Lemma comprehension_load_ok (st : State) (ranks : list nat)
    (shards : list (list (string * Module))) :
  Forall2 (shard_on_disk (fs (env st))) ranks shards ->
  exists ms,
    comprehension (fun rank => torch_load (shard_file rank)) ranks st =
      (Ok ms, st) /\
    named_children <$> ms = shards.
Proof.
  induction 1 as [|r shard ranks shards (seq & Hfile & Hseq) _ (ms & Hms & Hsh)].
  - by exists [].
  - exists (seq :: ms). cbn [comprehension].
    unfold bind at 1. unfold torch_load at 1. unfold bind at 1, get.
    rewrite Hfile. cbn. unfold bind at 1. rewrite Hms. cbn.
    split; [reflexivity|]. by rewrite Hseq, Hsh.
Qed.

Lemma comprehension_load_fail (st : State) (ranks : list nat) (r : nat) :
  r ∈ ranks ->
  (forall m, fs (env st) !! shard_file r ≠ Some (Pickled m)) ->
  exists e,
    comprehension (fun rank => torch_load (shard_file rank)) ranks st =
      (Raise e, st).
Proof.
  intros Hin Hbad. induction ranks as [|a ranks IH]; [by apply elem_of_nil in Hin|].
  cbn [comprehension]. unfold bind at 1. unfold torch_load at 1.
  unfold bind at 1, get.
  destruct (fs (env st) !! shard_file a) as [[m|]|] eqn:Hfile; cbn.
  - apply elem_of_cons in Hin as [->|Hin]; [by destruct (Hbad m)|].
    destruct (IH Hin) as [e He]. unfold bind at 1. rewrite He. by exists e.
  - by eexists.
  - by eexists.
Qed.

Lemma comprehension_remove (st : State) (ranks : list nat) :
  NoDup ranks ->
  (forall r, r ∈ ranks -> is_Some (fs (env st) !! shard_file r)) ->
  exists us files,
    comprehension (fun rank => os_remove (shard_file rank)) ranks st =
      (Ok us, put_fs files st) /\
    (forall r, r ∈ ranks -> files !! shard_file r = None) /\
    (forall path, (forall r, r ∈ ranks -> path ≠ shard_file r) ->
                  files !! path = fs (env st) !! path).
Proof.
  intros Hnd. revert st. induction Hnd as [|a ranks Ha Hnd IH]; intros st Hex.
  - exists [], (fs (env st)). cbn. rewrite put_fs_id.
    split; [reflexivity|]. split; [|reflexivity].
    intros r Hin. by apply elem_of_nil in Hin.
  - destruct (Hex a) as [f Hf]; [apply list_elem_of_here|].
    destruct (IH (put_fs (delete (shard_file a) (fs (env st))) st))
      as (us & files & Hrest & Hgone & Hkept).
    { intros r Hin. cbn. rewrite lookup_delete_ne.
      - apply Hex. by apply list_elem_of_further.
      - intros Heq. apply shard_file_inj in Heq. congruence. }
    exists (tt :: us), files. cbn [comprehension].
    unfold bind at 1. unfold os_remove at 1. unfold bind at 1, get.
    rewrite Hf. cbn. unfold bind at 1.
    change (set_env _ st) with (put_fs (delete (shard_file a) (fs (env st))) st).
    rewrite Hrest. cbn. split; [reflexivity|]. split.
    + intros r Hin. apply elem_of_cons in Hin as [->|Hin]; [|by apply Hgone].
      rewrite Hkept.
      * cbn. apply lookup_delete_eq.
      * intros r Hin Heq. apply shard_file_inj in Heq. congruence.
    + intros path Hpath. rewrite Hkept.
      * cbn. apply lookup_delete_ne. intros Heq.
        apply (Hpath a); [apply list_elem_of_here|done].
      * intros r Hin. apply Hpath. by apply list_elem_of_further.
Qed.

Lemma comprehension_load_state (ranks : list nat) (st : State) :
  snd (comprehension (fun rank => torch_load (shard_file rank)) ranks st) = st.
Proof.
  induction ranks as [|a ranks IH]; [reflexivity|].
  cbn [comprehension]. unfold bind at 1.
  pose proof (torch_load_state (shard_file a) st) as Ha.
  destruct (torch_load (shard_file a) st) as [[m|e] s]; cbn in Ha; subst s;
    [|reflexivity].
  unfold bind at 1.
  destruct (comprehension _ ranks st) as [[ms|e] s]; cbn in IH; subst s;
    reflexivity.
Qed.

Lemma comprehension_remove_frame (ranks : list nat) (st : State) :
  exists files,
    snd (comprehension (fun rank => os_remove (shard_file rank)) ranks st) =
    put_fs files st.
Proof.
  revert st. induction ranks as [|a ranks IH]; intros st.
  - exists (fs (env st)). cbn. by rewrite put_fs_id.
  - cbn [comprehension]. unfold bind at 1. unfold os_remove at 1.
    unfold bind at 1, get.
    destruct (fs (env st) !! shard_file a) as [f|]; cbn.
    + change (set_env _ st)
        with (put_fs (delete (shard_file a) (fs (env st))) st).
      destruct (IH (put_fs (delete (shard_file a) (fs (env st))) st))
        as [files Hfiles].
      unfold bind at 1.
      destruct (comprehension _ ranks _) as [[us|e] s]; cbn in Hfiles;
        subst s; by exists files.
    + exists (fs (env st)). by rewrite put_fs_id.
Qed.

Lemma reload_sequential_frame (n : nat) (st : State) :
  exists files,
    snd (reload_sequential no_params sequential_attr n st) = put_fs files st.
Proof.
  unfold reload_sequential. unfold bind at 1.
  pose proof (comprehension_load_state (seq 0 n) st) as Hload.
  destruct (comprehension _ (seq 0 n) st) as [[ms|e] s]; cbn in Hload; subst s.
  - unfold bind at 1, lift.
    destruct (add_all sequential_attr ms (Mod no_params [])) as [m|e].
    + unfold bind at 1.
      destruct (comprehension_remove_frame (seq 0 n) st) as [files Hfiles].
      destruct (comprehension _ (seq 0 n) st) as [[us|e] s]; cbn in Hfiles;
        subst s; by exists files.
    + exists (fs (env st)). by rewrite put_fs_id.
  - exists (fs (env st)). by rewrite put_fs_id.
Qed.

Lemma get_pl_layers_ok (st s : State) (l : Layers) :
  get_pl_layers st = (Ok l, s) ->
  s = st /\ layers (the_pl_module (env st)) = Some l.
Proof.
  unfold get_pl_layers, bind, get.
  destruct (layers (the_pl_module (env st))); cbn; [|discriminate].
  intros H. by injection H as -> ->.
Qed.

Lemma the_num_gpus_per_model_ok (st s : State) (n : nat) :
  the_num_gpus_per_model st = (Ok n, s) ->
  s = st /\ num_gpus_per_model (self st) = Some n.
Proof.
  unfold the_num_gpus_per_model, bind, get.
  destruct (num_gpus_per_model (self st)); cbn; [|discriminate].
  intros H. by injection H as -> ->.
Qed.

(** C7: when the shards of a sequential model are held, in rank order, by
    the processes of the group, saving every shard and reloading rebuilds
    a module whose named children are those of the original, in order,
    and leaves none of the shard files behind. *)
Theorem checkpoint_round_trip (st : State)
    (original : list (string * Module))
    (shards : list (list (string * Module))) :
  let N := length shards in
  let group := workers (env st) ++ [owner (env st)] in
  concat shards = original ->
  NoDup original.*1 ->
  Forall registrable original.*1 ->
  Forall (holds_shard shards) group ->
  (forall r, (r < N)%nat -> exists w, w ∈ group /\ rank w = r) ->
  exists st1 st2 seq,
    foreach_worker (save N) true st = (Ok tt, st1) /\
    reload_sequential no_params sequential_attr N st1 = (Ok seq, st2) /\
    named_children seq = original /\
    (forall r, (r < N)%nat -> fs (env st2) !! shard_file r = None).
Proof.
  intros N group Hconcat Hnd Hreg Hall Hcover.
  destruct (foreach_worker_save_conforming shards st Hall)
    as (f1 & Hsave & Hdisk).
  assert (Hfiles : Forall2 (shard_on_disk f1) (seq 0 N) shards).
  { apply Forall2_same_length_lookup_2; [by rewrite length_seq|].
    intros i r shard Hi Hs. apply lookup_seq in Hi as [-> Hlt].
    apply (Hdisk _ _ Hs). apply Hcover. exact Hlt. }
  destruct (comprehension_load_ok (put_fs f1 st) (seq 0 N) shards Hfiles)
    as (ms & Hload & Hms).
  destruct (comprehension_remove (put_fs f1 st) (seq 0 N))
    as (us & f2 & Hrm & Hgone & _); [apply NoDup_seq| |].
  { intros r Hin. apply elem_of_seq in Hin.
    destruct (lookup_lt_is_Some_2 shards r) as [shard Hs]; [fold N; lia|].
    destruct (Hdisk r shard Hs) as (m & Hm & _); [apply Hcover; lia|].
    cbn. by rewrite Hm. }
  exists (put_fs f1 st), (put_fs f2 st), (Mod no_params original).
  split; [exact Hsave|]. split; [|split; [reflexivity|]].
  - unfold reload_sequential. unfold bind at 1. rewrite Hload.
    unfold bind at 1, lift.
    rewrite (add_all_concat ms no_params []); rewrite Hms, Hconcat;
      [|exact Hnd|exact Hreg].
    unfold bind at 1. rewrite Hrm. reflexivity.
  - intros r Hr. cbn. apply Hgone. apply elem_of_seq. lia.
Qed.

(** C8 (amended): when, after the shards are saved, the file of some rank
    is missing or does not load, the reload raises and changes nothing:
    the save is abandoned before the callback is called, the layers of
    the module are untouched, and the shard files that were written stay
    where they are. *)
Theorem failed_reload_abandons_save
    (save_model_fn : string -> M Env unit) (last_filepath : string)
    (st st1 : State) (n r : nat) :
  has_foreach_worker (model (env st)) = true ->
  is_Some (layers (the_pl_module (env st))) ->
  num_gpus_per_model (self st) = Some n ->
  foreach_worker (save n) true st = (Ok tt, st1) ->
  (r < n)%nat ->
  (forall m, fs (env st1) !! shard_file r ≠ Some (Pickled m)) ->
  exists e,
    reload_sequential no_params sequential_attr n st1 = (Raise e, st1) /\
    rpc_save_model no_params sequential_attr save_model_fn last_filepath st =
      (Raise e, st1) /\
    trace st1 = trace st /\
    layers (the_pl_module (env st1)) = layers (the_pl_module (env st)).
Proof.
  intros Hfw [current Hcur] Hn Hsave Hr Hbad.
  destruct (foreach_worker_save_frame n true st) as [f1 Hf1].
  rewrite Hsave in Hf1. cbn in Hf1. subst st1.
  destruct (comprehension_load_fail (put_fs f1 st) (seq 0 n) r) as [e He];
    [apply elem_of_seq; lia|exact Hbad|].
  assert (Hreload : reload_sequential no_params sequential_attr n (put_fs f1 st)
                    = (Raise e, put_fs f1 st)).
  { unfold reload_sequential. unfold bind at 1. by rewrite He. }
  exists e. split; [exact Hreload|]. split; [|split].
  - unfold rpc_save_model. unfold bind at 1, get. rewrite Hfw.
    unfold bind at 1, get_pl_layers. unfold bind at 1, get. rewrite Hcur. cbn.
    unfold bind at 1, the_num_gpus_per_model. unfold bind at 1, get.
    rewrite Hn. cbn.
    unfold bind at 1. rewrite Hsave.
    unfold bind at 1. unfold bind at 1, get. cbn. rewrite Hn. cbn.
    unfold bind at 1. by rewrite Hreload.
  - reflexivity.
  - cbn. unfold the_pl_module. cbn. reflexivity.
Qed.

(** C9: a call of [rpc_save_model] that returns normally leaves in
    [layers] the object it found there; the rebuilt sequential module is
    in place only while the callback runs. *)
Theorem rpc_save_model_restores_layers
    (save_model_fn : string -> M Env unit) (last_filepath : string)
    (st st' : State) :
  has_foreach_worker (model (env st)) = true ->
  rpc_save_model no_params sequential_attr save_model_fn last_filepath st =
    (Ok tt, st') ->
  exists current seq,
    layers (the_pl_module (env st)) = Some current /\
    layers (the_pl_module (env st')) = Some current /\
    trace st' =
      trace st ++ [SaveModelFn last_filepath (Some (NNSequential seq))].
Proof.
  intros Hfw H. unfold rpc_save_model in H.
  unfold bind at 1, get in H. rewrite Hfw in H.
  apply bind_ok_inv in H as (current & s1 & Hcur & H).
  apply get_pl_layers_ok in Hcur as [-> Hcur].
  apply bind_ok_inv in H as (n & s2 & Hn & H).
  apply the_num_gpus_per_model_ok in Hn as [-> Hn].
  apply bind_ok_inv in H as ([] & s3 & Hsave & H).
  destruct (foreach_worker_save_frame n true st) as [f1 Hf1].
  rewrite Hsave in Hf1. cbn in Hf1. subst s3.
  apply bind_ok_inv in H as (n' & s4 & Hn' & H).
  apply the_num_gpus_per_model_ok in Hn' as [-> _].
  apply bind_ok_inv in H as (seq & s5 & Hreload & H).
  destruct (reload_sequential_frame n' (put_fs f1 st)) as [f2 Hf2].
  rewrite Hreload in Hf2. cbn in Hf2. subst s5.
  apply bind_ok_inv in H as ([] & s6 & Hset & H).
  injection Hset as <-.
  apply bind_ok_inv in H as ([] & s7 & Hcall & H).
  unfold call_save_model_fn in Hcall.
  unfold bind at 1, get in Hcall. unfold bind at 1, modify in Hcall.
  cbn in Hcall. rewrite layers_update_pl_module in Hcall.
  destruct (save_model_fn last_filepath _) as [[[]|e] e'] in Hcall;
    [|discriminate].
  injection Hcall as <-.
  apply bind_ok_inv in H as ([] & s8 & Hdel & H).
  unfold del_pl_layers in Hdel.
  apply bind_ok_inv in Hdel as (l & s9 & Hl & Hdel).
  apply get_pl_layers_ok in Hl as [-> _].
  injection Hdel as <-. injection H as <-.
  exists current, seq. split; [exact Hcur|]. split.
  - cbn. apply layers_update_pl_module.
  - reflexivity.
Qed.

(** C10: on a model without the [foreach_worker] attribute,
    [rpc_save_model] returns normally and changes nothing, whatever the
    callback is: no file is written, the callback is not called, and the
    layers stay as they are. *)
Theorem rpc_save_model_not_pipelined
    (save_model_fn : string -> M Env unit) (last_filepath : string)
    (st : State) :
  has_foreach_worker (model (env st)) = false ->
  rpc_save_model no_params sequential_attr save_model_fn last_filepath st =
    (Ok tt, st).
Proof.
  intros Hfw. unfold rpc_save_model, bind, get, ret. by rewrite Hfw.
Qed.

End Properties.

(** * The definitions run on the concrete deployment *)

(** C1: with world size 4 and the two-entry balance [2, 1] the divisibility
    check passes, and the replica count handed to the model-parallel
    initialisation is 2/4, not 4/2. *)
Theorem init_model_parallel_groups_world_four :
  exists st' q,
    init_model_parallel_groups 4 Scenario.unwrapped = (Ok tt, st') /\
    mpu_args (env st') = Some (q, 4) /\
    Qeq q (1 # 2) /\
    ~ Qeq q (inject_Z (4 / 2)).
Proof.
  exists (snd (init_model_parallel_groups 4 Scenario.unwrapped)), (2 # 4).
  split; [vm_compute; reflexivity|]. split; [vm_compute; reflexivity|].
  split; [reflexivity|]. intros H. vm_compute in H. discriminate.
Qed.

(** C5, as stated, fails: a plugin configured without a balance is never
    constructed, so it cannot infer one at connection setup. *)
Lemma no_balance_no_plugin :
  ~ exists p : PipeRPCPlugin,
      __init__ None (Some 2) 8 "except_last" "balance_by_size" (Some true) = Ok p.
Proof. intros [p H]. cbn in H. discriminate. Qed.

(** C2 on the deployment: the balance [2, 1] passes against the three-layer
    model and is rejected, with both numbers in the message, against a
    four-layer one. *)
Lemma assert_valid_model_balance_scenario :
  _assert_valid_model_balance Scenario.unwrapped = (Ok tt, Scenario.unwrapped) /\
  _assert_valid_model_balance Scenario.unwrapped_four =
    (Raise (MisconfigurationException
       "The provided balance sum: 3 doesn t match your Sequential length: 4"),
     Scenario.unwrapped_four).
Proof.
  split.
  - apply (assert_valid_model_balance_spec Scenario.unwrapped [2; 1]
             (Mod 0 Scenario.original) eq_refl eq_refl).
    reflexivity.
  - apply (assert_valid_model_balance_spec Scenario.unwrapped_four [2; 1]
             (Mod 0 Scenario.four_layers) eq_refl eq_refl).
    vm_compute. discriminate.
Defined.

(** C5 on the deployment: the constructor rejects a missing balance, and
    the inference raises a configuration error on the model that has no
    example input and none on the model that has one. *)
Lemma missing_balance_scenario :
  is_misconfiguration
    (__init__ None (Some 2) 8 "except_last" "balance_by_size" (Some true)) = true /\
  is_misconfiguration
    (fst (_infer_model_balance (fun _ => None) Scenario.not_pipelined)) = true /\
  is_misconfiguration
    (fst (_infer_model_balance (fun _ => None) Scenario.unwrapped)) = false.
Proof.
  destruct (missing_balance_rejected_by_constructor
              (Params := Z) (PipeObj := nat) (Closure := nat) (Input := Z)
              (fun _ => None)) as (Hinit & _ & Hinfer).
  split; [apply Hinit|]. split.
  - apply Hinfer. reflexivity.
  - destruct (is_misconfiguration _) eqn:E; [|reflexivity].
    apply Hinfer in E. discriminate.
Defined.

(** C3, as stated, fails: with the toggle false, the first call is not the
    one that returns false. *)
Lemma first_optimizer_step_is_performed :
  ~ exists st1 st2,
      optimizer_step Scenario.optimizer0 5%nat Scenario.wrapped = (Ok false, st1) /\
      optimizer_step Scenario.optimizer0 5%nat st1 = (Ok true, st2).
Proof. intros (st1 & st2 & H1 & _). vm_compute in H1. discriminate. Qed.

(** C3 (amended) on the deployment. *)
Lemma optimizer_toggle_law_scenario :
  exists st1 st2 remote,
    optimizer_step Scenario.optimizer0 5%nat Scenario.wrapped = (Ok true, st1) /\
    optimizer_step Scenario.optimizer0 6%nat st1 = (Ok false, st2) /\
    trace st1 =
      trace Scenario.wrapped ++
      OptimizerStep 0 Scenario.optimizer0 (UserClosure 5%nat) :: remote /\
    length remote = 1%nat /\
    trace st2 = trace st1 /\
    _optimizers_map (self st2) = Some {[ 0%nat := false ]}.
Proof.
  apply (optimizer_toggle_law Scenario.wrapped Scenario.optimizer0
           Scenario.optimizer0 5%nat 6%nat {[ 0%nat := false ]}
           eq_refl eq_refl).
  - reflexivity.
  - reflexivity.
  - repeat constructor. by eexists.
Defined.

(** C6 on the deployment: the performed step, then the deferred one. *)
Lemma optimizer_step_scenario :
  (exists st' remote,
      optimizer_step Scenario.optimizer0 5%nat Scenario.wrapped = (Ok true, st') /\
      _optimizers_map (self st') = Some (<[0%nat := true]> {[ 0%nat := false ]}) /\
      trace st' =
        trace Scenario.wrapped ++
        OptimizerStep 0 Scenario.optimizer0 (UserClosure 5%nat) :: remote /\
      Forall2 (remote_step 0) (workers (env Scenario.wrapped)) remote) /\
  (exists st',
      optimizer_step Scenario.optimizer0 6%nat
        (snd (optimizer_step Scenario.optimizer0 5%nat Scenario.wrapped)) =
        (Ok false, st') /\
      trace st' =
        [OptimizerStep 0 Scenario.optimizer0 (UserClosure 5%nat);
         OptimizerStep 1 Scenario.optimizer1 do_nothing_optimizer_closure]).
Proof.
  split.
  - apply (optimizer_step_spec Scenario.wrapped Scenario.optimizer0 5%nat
             {[ 0%nat := false ]} eq_refl).
    + reflexivity.
    + reflexivity.
    + repeat constructor. by eexists.
  - destruct (proj1 (optimizer_step_spec
                (snd (optimizer_step Scenario.optimizer0 5%nat Scenario.wrapped))
                Scenario.optimizer0 6%nat
                (<[0%nat := true]> {[ 0%nat := false ]}) eq_refl) eq_refl)
      as (st' & Hrun & _ & Htrace & _).
    exists st'. split; [exact Hrun|]. rewrite Htrace. reflexivity.
Defined.

(** C7 on the deployment: the two shards of the three-layer model. *)
Lemma checkpoint_round_trip_scenario :
  exists st1 st2 seq,
    foreach_worker (save 2) true Scenario.wrapped = (Ok tt, st1) /\
    reload_sequential 0 Scenario.sequential_attr 2 st1 = (Ok seq, st2) /\
    named_children seq = Scenario.original /\
    (forall r, (r < 2)%nat -> fs (env st2) !! shard_file r = None).
Proof.
  apply (checkpoint_round_trip 0 Scenario.sequential_attr Scenario.wrapped
           Scenario.original Scenario.shards).
  - reflexivity.
  - apply (bool_decide_unpack _). vm_compute. exact I.
  - repeat constructor; vm_compute; discriminate.
  - repeat constructor; intros shard H; vm_compute in H; injection H as <-;
      eexists; split; reflexivity.
  - intros [|[|r]] Hr; [| |cbn in Hr; lia].
    + exists (owner (env Scenario.wrapped)). split; [|reflexivity].
      apply list_elem_of_further, list_elem_of_here.
    + exists (Scenario.worker 1 [("2", Scenario.leaf 12)] Scenario.optimizer1).
      split; [apply list_elem_of_here|reflexivity].
Defined.

(** C8, as stated, fails: the file of rank 1 is missing, the save is
    abandoned, and the file of rank 0 is still there. *)
Lemma failed_reload_keeps_shard_file :
  exists e st',
    rpc_save_model 0 Scenario.sequential_attr Scenario.write_checkpoint
      "last.ckpt" Scenario.lone_owner = (Raise e, st') /\
    fs (env st') !! shard_file 1 = None /\
    is_Some (fs (env st') !! shard_file 0).
Proof.
  exists (FileNotFoundError "seq_1.pt"),
    (snd (rpc_save_model 0 Scenario.sequential_attr Scenario.write_checkpoint
            "last.ckpt" Scenario.lone_owner)).
  split; [vm_compute; reflexivity|]. split; [vm_compute; reflexivity|].
  vm_compute. by eexists.
Qed.

(** C8 (amended) on the deployment. *)
Lemma failed_reload_scenario :
  exists e,
    reload_sequential 0 Scenario.sequential_attr 2
      (snd (foreach_worker (save 2) true Scenario.lone_owner)) =
      (Raise e, snd (foreach_worker (save 2) true Scenario.lone_owner)) /\
    rpc_save_model 0 Scenario.sequential_attr Scenario.write_checkpoint
      "last.ckpt" Scenario.lone_owner =
      (Raise e, snd (foreach_worker (save 2) true Scenario.lone_owner)) /\
    trace (snd (foreach_worker (save 2) true Scenario.lone_owner)) =
      trace Scenario.lone_owner /\
    layers (the_pl_module
              (env (snd (foreach_worker (save 2) true Scenario.lone_owner)))) =
      layers (the_pl_module (env Scenario.lone_owner)).
Proof.
  apply (failed_reload_abandons_save 0 Scenario.sequential_attr
           Scenario.write_checkpoint "last.ckpt" Scenario.lone_owner
           (snd (foreach_worker (save 2) true Scenario.lone_owner)) 2 1).
  - reflexivity.
  - by eexists.
  - reflexivity.
  - vm_compute. reflexivity.
  - lia.
  - intros m. vm_compute. discriminate.
Defined.

(** C9 on the deployment: the pipeline object is back in [layers] after a
    save that wrote the checkpoint. *)
Lemma rpc_save_model_restores_layers_scenario :
  exists current seq,
    layers (the_pl_module (env Scenario.wrapped)) = Some current /\
    layers (the_pl_module
              (env (snd (rpc_save_model 0 Scenario.sequential_attr
                           Scenario.write_checkpoint "last.ckpt"
                           Scenario.wrapped)))) = Some current /\
    trace (snd (rpc_save_model 0 Scenario.sequential_attr
                  Scenario.write_checkpoint "last.ckpt" Scenario.wrapped)) =
      trace Scenario.wrapped ++
      [SaveModelFn "last.ckpt" (Some (NNSequential seq))].
Proof.
  apply (rpc_save_model_restores_layers 0 Scenario.sequential_attr
           Scenario.write_checkpoint "last.ckpt" Scenario.wrapped).
  - reflexivity.
  - vm_compute. reflexivity.
Defined.

(** C10 on the deployment, with a callback that would raise if called. *)
Lemma rpc_save_model_not_pipelined_scenario :
  rpc_save_model 0 Scenario.sequential_attr
    (fun _ e => (Raise TypeError, e)) "last.ckpt" Scenario.not_pipelined =
    (Ok tt, Scenario.not_pipelined).
Proof.
  apply (rpc_save_model_not_pipelined 0 Scenario.sequential_attr
           (fun _ e => (Raise TypeError, e)) "last.ckpt" Scenario.not_pipelined).
  reflexivity.
Defined.

(** * Further properties of the plugin *)

Section Setup.

Context {Params PipeObj Closure Input : Type}.

Local Abbreviation State := (State (Params := Params) (PipeObj := PipeObj)
                               (Closure := Closure) (Input := Input)).
Local Abbreviation Layers := (Layers (Params := Params) (PipeObj := PipeObj)).
Local Abbreviation Trainer := (Trainer (Closure := Closure)).

Variable pipe_balance :
  string -> option (Z -> Layers -> Input -> string + list Z).
Variable super_init_distributed_connection :
  Trainer -> Z -> Z -> bool -> M State unit.
Variable super_init_rpc_connection : Z -> Z -> M State unit.

(** ** Process topology *)


(** X2: a world size that is no multiple of the length of the balance is
    rejected with an assertion error; by then the length of the balance is
    stored in [num_gpus_per_model], and nothing else has changed (the
    groups are not initialised). *)
Theorem init_model_parallel_groups_rejects (world_size : Z) (st : State)
    (b : list Z) :
  balance (self st) = Some b ->
  b ≠ [] ->
  world_size mod Z.of_nat (length b) ≠ 0 ->
  init_model_parallel_groups world_size st =
    (Raise AssertionError, set_self (with_num_gpus_per_model (length b)) st).
Proof.
  intros Hb Hne Hmod.
  unfold init_model_parallel_groups, the_balance, bind, get, lift, modify.
  rewrite Hb. cbn. unfold ensure_divisibility.
  destruct (Z.eqb_spec (Z.of_nat (length b)) 0) as [H0|H0].
  - destruct b; [done|cbn in H0; lia].
  - destruct (Z.eqb_spec (world_size mod Z.of_nat (length b)) 0); done.
Qed.

Lemma init_model_parallel_groups_frame (world_size : Z) (st : State) :
  main_rpc_process (self (snd (init_model_parallel_groups world_size st))) =
    main_rpc_process (self st) /\
  balance (self (snd (init_model_parallel_groups world_size st))) =
    balance (self st) /\
  model (env (snd (init_model_parallel_groups world_size st))) =
    model (env st).
Proof.
  unfold init_model_parallel_groups, the_balance, bind, get, lift, modify.
  destruct (balance (self st)) eqn:Hb; cbn; rewrite ?Hb; [|done].
  destruct (ensure_divisibility _ _); cbn; rewrite ?Hb; [|done].
  destruct (truediv _ _); cbn; rewrite ?Hb; done.
Qed.

(** ** Connection setup *)

(** X3: with automatic optimization or with a mixed-precision backend the
    connection setup raises a configuration error before it does anything:
    the state is the one it started from, whatever the parent class would
    have done. *)
Theorem init_distributed_connection_guarded (trainer : Trainer)
    (global_rank world_size : Z) (is_slurm_managing_tasks : bool) (st : State) :
  automatic_optimization trainer = true \/ amp_backend trainer ≠ None ->
  exists msg,
    init_distributed_connection pipe_balance super_init_distributed_connection
      super_init_rpc_connection trainer global_rank world_size
      is_slurm_managing_tasks st =
    (Raise (MisconfigurationException msg), st).
Proof.
  intros Hguard. unfold init_distributed_connection. unfold bind at 1.
  unfold _check_manual_optimization.
  destruct (automatic_optimization trainer); [by eexists|].
  destruct Hguard as [|Hamp]; [done|].
  rewrite bool_decide_eq_true_2 by exact Hamp. by eexists.
Qed.

(** X4: in testing, with the distributed connection already up, the setup
    initialises nothing again: its only effect is the main-process flag,
    computed from the rank of the trainer. *)
Theorem init_distributed_connection_skipped (trainer : Trainer)
    (global_rank world_size : Z) (is_slurm_managing_tasks : bool) (st : State) :
  automatic_optimization trainer = false ->
  amp_backend trainer = None ->
  dist_initialized (env st) = true ->
  testing trainer = true ->
  init_distributed_connection pipe_balance super_init_distributed_connection
    super_init_rpc_connection trainer global_rank world_size
    is_slurm_managing_tasks st =
  (Ok tt,
   set_self (with_main_rpc_process
               (bool_decide (trainer_global_rank trainer ≠ 0))) st).
Proof.
  intros Hauto Hamp Hinit Htest.
  unfold init_distributed_connection.
  unfold bind at 1. unfold _check_manual_optimization.
  rewrite Hauto, Hamp.
  rewrite bool_decide_eq_false_2 by (intros H; by apply H).
  cbn [ret]. unfold bind at 1. unfold _skip_init_connections.
  unfold bind at 1, get. cbv beta iota. rewrite Hinit, Htest.
  reflexivity.
Qed.

Lemma init_distributed_connection_connected (trainer : Trainer)
    (global_rank world_size : Z) (is_slurm_managing_tasks : bool)
    (st s1 s2 : State) :
  automatic_optimization trainer = false ->
  amp_backend trainer = None ->
  dist_initialized (env st) && testing trainer = false ->
  super_init_distributed_connection trainer global_rank world_size
    is_slurm_managing_tasks st = (Ok tt, s1) ->
  super_init_rpc_connection global_rank world_size s1 = (Ok tt, s2) ->
  init_distributed_connection pipe_balance super_init_distributed_connection
    super_init_rpc_connection trainer global_rank world_size
    is_slurm_managing_tasks st =
  ((init_model_parallel_groups world_size ;;;
    st <- get ;;
    if main_rpc_process (self st) then
      _check_sequential_model_exists ;;;
      st <- get ;;
      (match balance (self st) with
       | None =>
           b <- _infer_model_balance pipe_balance ;;
           modify (set_self (with_balance (Some b)))
       | Some _ => ret tt
       end) ;;;
      _assert_valid_model_balance
    else ret tt) ;;;
   set_main_rpc_process (trainer_global_rank trainer)) s2.
Proof.
  intros Hauto Hamp Hskip Hs1 Hs2.
  unfold init_distributed_connection.
  unfold bind at 1. unfold _check_manual_optimization.
  rewrite Hauto, Hamp.
  rewrite bool_decide_eq_false_2 by (intros H; by apply H).
  cbn [ret]. unfold bind at 1. unfold _skip_init_connections.
  unfold bind at 1, get. cbv beta iota. rewrite Hskip. cbn [ret negb].
  unfold bind at 1. unfold bind at 1. rewrite Hs1.
  unfold bind at 1. rewrite Hs2.
  reflexivity.
Qed.

(** X5: while the main-process flag is still false (as the constructor
    leaves it), a setup whose connection and topology steps succeed
    finishes without looking at the model: neither the presence of a
    sequential model nor the sum of the balance is checked. *)
Theorem init_distributed_connection_unflagged (trainer : Trainer)
    (global_rank world_size : Z) (is_slurm_managing_tasks : bool)
    (st s1 s2 s3 : State) :
  automatic_optimization trainer = false ->
  amp_backend trainer = None ->
  dist_initialized (env st) && testing trainer = false ->
  super_init_distributed_connection trainer global_rank world_size
    is_slurm_managing_tasks st = (Ok tt, s1) ->
  super_init_rpc_connection global_rank world_size s1 = (Ok tt, s2) ->
  init_model_parallel_groups world_size s2 = (Ok tt, s3) ->
  main_rpc_process (self s2) = false ->
  init_distributed_connection pipe_balance super_init_distributed_connection
    super_init_rpc_connection trainer global_rank world_size
    is_slurm_managing_tasks st =
  (Ok tt,
   set_self (with_main_rpc_process
               (bool_decide (trainer_global_rank trainer ≠ 0))) s3).
Proof.
  intros Hauto Hamp Hskip Hs1 Hs2 Hs3 Hflag.
  rewrite (init_distributed_connection_connected trainer global_rank
             world_size is_slurm_managing_tasks st s1 s2) by assumption.
  destruct (init_model_parallel_groups_frame world_size s2) as (Hf & _ & _).
  rewrite Hs3 in Hf. cbn in Hf.
  unfold bind at 1. unfold bind at 1. rewrite Hs3.
  unfold bind at 1, get. cbv beta iota. rewrite Hf, Hflag. reflexivity.
Qed.

(** X6: once the flag is true, the same setup checks the model: without a
    sequential [layers] it raises the missing-model error, with a balance
    whose sum is not the number of layers it raises the mismatch error,
    and in both cases the flag is not recomputed; otherwise it returns
    normally with the flag recomputed. *)
Theorem init_distributed_connection_flagged (trainer : Trainer)
    (global_rank world_size : Z) (is_slurm_managing_tasks : bool)
    (st s1 s2 s3 : State) (b : list Z) :
  automatic_optimization trainer = false ->
  amp_backend trainer = None ->
  dist_initialized (env st) && testing trainer = false ->
  super_init_distributed_connection trainer global_rank world_size
    is_slurm_managing_tasks st = (Ok tt, s1) ->
  super_init_rpc_connection global_rank world_size s1 = (Ok tt, s2) ->
  init_model_parallel_groups world_size s2 = (Ok tt, s3) ->
  main_rpc_process (self s2) = true ->
  balance (self s2) = Some b ->
  init_distributed_connection pipe_balance super_init_distributed_connection
    super_init_rpc_connection trainer global_rank world_size
    is_slurm_managing_tasks st =
  match layers (model (env s3)) with
  | Some (NNSequential seq) =>
      if bool_decide (sum b = Z.of_nat (length (named_children seq))) then
        (Ok tt,
         set_self (with_main_rpc_process
                     (bool_decide (trainer_global_rank trainer ≠ 0))) s3)
      else
        (Raise (MisconfigurationException
                  ("The provided balance sum: " +:+ pretty (sum b)
                   +:+ " doesn t match your Sequential length: "
                   +:+ pretty (length (named_children seq)))),
         s3)
  | _ => (Raise sequential_model_missing, s3)
  end.
Proof.
  intros Hauto Hamp Hskip Hs1 Hs2 Hs3 Hflag Hbal.
  rewrite (init_distributed_connection_connected trainer global_rank
             world_size is_slurm_managing_tasks st s1 s2) by assumption.
  destruct (init_model_parallel_groups_frame world_size s2) as (Hf & Hb & _).
  rewrite Hs3 in Hf, Hb. cbn in Hf, Hb. rewrite Hbal in Hb.
  unfold bind at 1. unfold bind at 1. rewrite Hs3.
  unfold bind at 1, get. cbv beta iota. rewrite Hf, Hflag.
  unfold bind at 1. unfold _check_sequential_model_exists.
  unfold bind at 1, get. cbv beta iota.
  destruct (layers (model (env s3))) as [[seq|pipe]|] eqn:Hl; [|done|done].
  cbn [ret]. unfold bind at 1, get. cbv beta iota. rewrite Hb.
  unfold bind at 1. cbn [ret].
  unfold _assert_valid_model_balance, the_balance, len_layers, bind, get, lift.
  rewrite Hb, Hl. cbn -[pretty]. unfold balance_mismatch_message.
  case_bool_decide as Hne.
  - by rewrite bool_decide_eq_false_2.
  - by rewrite bool_decide_eq_true_2.
Qed.

(** X7: a plugin object without a balance does not reach the inference of
    connection setup: the topology step comes first and raises a type
    error on it. *)
Theorem init_distributed_connection_without_balance (trainer : Trainer)
    (global_rank world_size : Z) (is_slurm_managing_tasks : bool)
    (st s1 s2 : State) :
  automatic_optimization trainer = false ->
  amp_backend trainer = None ->
  dist_initialized (env st) && testing trainer = false ->
  super_init_distributed_connection trainer global_rank world_size
    is_slurm_managing_tasks st = (Ok tt, s1) ->
  super_init_rpc_connection global_rank world_size s1 = (Ok tt, s2) ->
  balance (self s2) = None ->
  init_distributed_connection pipe_balance super_init_distributed_connection
    super_init_rpc_connection trainer global_rank world_size
    is_slurm_managing_tasks st = (Raise TypeError, s2).
Proof.
  intros Hauto Hamp Hskip Hs1 Hs2 Hbal.
  rewrite (init_distributed_connection_connected trainer global_rank
             world_size is_slurm_managing_tasks st s1 s2) by assumption.
  unfold bind at 1. unfold bind at 1.
  unfold init_model_parallel_groups. unfold bind at 1.
  unfold the_balance. unfold bind at 1, get. cbv beta iota.
  rewrite Hbal. reflexivity.
Qed.

Lemma infer_model_balance_state (st : State) :
  snd (_infer_model_balance pipe_balance st) = st.
Proof.
  unfold _infer_model_balance, bind, get. cbn.
  destruct (example_input_array _); [|done].
  destruct (pipe_balance _) as [f|]; [|done].
  destruct (layers _) as [l|]; [|done].
  by destruct (f _ l _).
Qed.

Lemma bind_raise_keeps {A B} (P : State -> Prop) (m : M State A)
    (k : A -> M State B) :
  (forall s, P s -> P (snd (m s))) ->
  (forall a s e s', P s -> k a s = (Raise e, s') -> P s') ->
  forall s e s', P s -> bind m k s = (Raise e, s') -> P s'.
Proof.
  intros Hm Hk s e s' Hs. unfold bind. specialize (Hm s Hs).
  destruct (m s) as [[a|e0] s0]; cbn in Hm.
  - by apply Hk.
  - by intros [= _ <-].
Qed.

(** X8: as long as the two parent-class calls leave the plugin object
    alone, the main-process flag changes only when the setup returns
    normally, and is then true exactly when the rank of the trainer is not
    zero; a setup that raises leaves the flag as it was. *)
Theorem init_distributed_connection_flag (trainer : Trainer)
    (global_rank world_size : Z) (is_slurm_managing_tasks : bool)
    (st st' : State) (r : result unit) :
  (forall s, self (snd (super_init_distributed_connection trainer global_rank
                          world_size is_slurm_managing_tasks s)) = self s) ->
  (forall s, self (snd (super_init_rpc_connection global_rank world_size s))
             = self s) ->
  init_distributed_connection pipe_balance super_init_distributed_connection
    super_init_rpc_connection trainer global_rank world_size
    is_slurm_managing_tasks st = (r, st') ->
  main_rpc_process (self st') =
    match r with
    | Ok _ => bool_decide (trainer_global_rank trainer ≠ 0)
    | Raise _ => main_rpc_process (self st)
    end.
Proof.
  intros Hsuper1 Hsuper2 Hrun. destruct r as [[]|e].
  - unfold init_distributed_connection in Hrun.
    apply bind_ok_inv in Hrun as (? & sa & _ & Hrun).
    apply bind_ok_inv in Hrun as (skip & sb & _ & Hrun).
    apply bind_ok_inv in Hrun as (? & sc & _ & Hrun).
    by injection Hrun as <-.
  - remember (main_rpc_process (self st)) as f eqn:Hf. symmetry in Hf.
    revert st e st' Hf Hrun.
    unfold init_distributed_connection.
    apply (bind_raise_keeps (fun s => main_rpc_process (self s) = f)).
    { intros s Hs. unfold _check_manual_optimization.
      destruct (automatic_optimization trainer); [exact Hs|].
      case_bool_decide; exact Hs. }
    intros _.
    apply (bind_raise_keeps (fun s => main_rpc_process (self s) = f)).
    { intros s Hs. unfold _skip_init_connections, bind, get.
      destruct (_ && _); exact Hs. }
    intros skip.
    apply (bind_raise_keeps (fun s => main_rpc_process (self s) = f));
      [|intros _ s e s' _ H; discriminate].
    destruct skip; cbn [negb]; [intros s Hs; exact Hs|].
    apply (bind_keeps (fun s => main_rpc_process (self s) = f));
      [intros s Hs; by rewrite Hsuper1|].
    intros _. apply (bind_keeps (fun s => main_rpc_process (self s) = f));
      [intros s Hs; by rewrite Hsuper2|].
    intros _. apply (bind_keeps (fun s => main_rpc_process (self s) = f)).
    { intros s Hs.
      destruct (init_model_parallel_groups_frame world_size s) as (-> & _).
      exact Hs. }
    intros _ s Hs. unfold bind at 1, get. cbv beta iota.
    destruct (main_rpc_process (self s)) eqn:Hmain; [|cbn; congruence].
    rewrite <- Hmain in Hs. clear Hmain. revert s Hs.
    apply (bind_keeps (fun s => main_rpc_process (self s) = f)).
    { intros s Hs. unfold _check_sequential_model_exists, bind, get.
      destruct (layers (model (env s))) as [[]|]; exact Hs. }
    intros _ s Hs. unfold bind at 1, get. cbv beta iota.
    revert s Hs.
    apply (bind_keeps (fun s => main_rpc_process (self s) = f)).
    + intros s Hs. destruct (balance (self s)); [exact Hs|].
      unfold bind.
      pose proof (infer_model_balance_state s) as Hinf.
      destruct (_infer_model_balance pipe_balance s) as [[b|e] s0];
        cbn in Hinf; subst s0; exact Hs.
    + intros _ s Hs.
      unfold _assert_valid_model_balance, the_balance, bind, get, lift.
      cbn. destruct (balance (self s)); [|exact Hs]. cbn.
      destruct (len_layers _); [|exact Hs].
      case_bool_decide; exact Hs.
Qed.

End Setup.

Section Optimizers.

Context {Params PipeObj Closure Input : Type}.

Local Abbreviation State := (State (Params := Params) (PipeObj := PipeObj)
                               (Closure := Closure) (Input := Input)).
Local Abbreviation Worker := (Worker (Params := Params) (Closure := Closure)).
Local Abbreviation Optimizer := (Optimizer (Closure := Closure)).
Local Abbreviation Trainer := (Trainer (Closure := Closure)).

Lemma toggles_lookup_None {A} (key : nat -> nat) (l : list A) (i : nat) :
  (forall j, (j < length l)%nat -> key j ≠ i) ->
  (list_to_map (imap (fun j _ => (key j, false)) l) : gmap nat bool) !! i = None.
Proof.
  revert key. induction l as [|x l IH]; intros key Hkey; [done|].
  cbn. rewrite lookup_insert_ne by (apply Hkey; cbn; lia).
  apply (IH (key ∘ S)). intros j Hj. apply Hkey. cbn. lia.
Qed.

(** X9: attaching the optimizers replaces the toggle map by one whose keys
    are exactly the positions of the trainer's optimizers, every toggle
    false. *)
Theorem on_after_setup_optimizers_toggles (trainer : Trainer) (st : State) :
  exists m,
    on_after_setup_optimizers trainer st =
      (Ok tt, set_self (with_optimizers_map m) st) /\
    forall opt_idx,
      m !! opt_idx =
        if bool_decide (opt_idx < length (trainer_optimizers trainer))%nat
        then Some false else None.
Proof.
  eexists. split; [reflexivity|]. intros opt_idx. case_bool_decide as Hlt.
  - by apply (toggles_lookup (fun j => j)).
  - apply (toggles_lookup_None (fun j => j)). intros j Hj. lia.
Qed.

(** X10: after the optimizers are attached, a step for an optimizer whose
    index is not a position of the trainer's list raises a key error and
    changes nothing: no toggle is created for it and nothing is stepped. *)
Theorem optimizer_step_unregistered (trainer : Trainer) (st : State)
    (optimizer : Optimizer) (closure : Closure) :
  (length (trainer_optimizers trainer) <= _optimizer_idx optimizer)%nat ->
  exists st1,
    on_after_setup_optimizers trainer st = (Ok tt, st1) /\
    optimizer_step optimizer closure st1 = (Raise KeyError, st1).
Proof.
  intros Hge. eexists. split; [reflexivity|].
  unfold optimizer_step, the_optimizers_map. unfold bind at 1.
  unfold bind at 1, get. cbn.
  rewrite (toggles_lookup_None (fun j => j)); [reflexivity|].
  intros j Hj. lia.
Qed.






End Optimizers.

Section Checkpoints.

Context {Params PipeObj Closure Input : Type}.

Local Abbreviation State := (State (Params := Params) (PipeObj := PipeObj)
                               (Closure := Closure) (Input := Input)).
Local Abbreviation Module := (Module (Params := Params)).
Local Abbreviation Layers := (Layers (Params := Params) (PipeObj := PipeObj)).
Local Abbreviation Env := (Env (Params := Params) (PipeObj := PipeObj)
                             (Closure := Closure) (Input := Input)).
Local Abbreviation Worker := (Worker (Params := Params) (Closure := Closure)).
Local Abbreviation File := (File (Params := Params)).

Variable no_params : Params.
Variable sequential_attr : string -> bool.

(** ** Shard files *)

(** X14: two ranks never share a shard file. *)
Theorem shard_files_distinct (r1 r2 : nat) :
  r1 ≠ r2 -> shard_file r1 ≠ shard_file r2.
Proof. intros Hne Heq. by apply Hne, shard_file_inj. Qed.

Lemma save_other_files (n : nat) (w : Worker) (st : State) :
  exists files,
    snd (save n w st) = put_fs files st /\
    forall path, (forall r, path ≠ shard_file r) ->
                 files !! path = fs (env st) !! path.
Proof.
  unfold save. case_bool_decide.
  - destruct (children (local_model w)); cbn.
    + exists (fs (env st)). by rewrite put_fs_id.
    + eexists. split; [reflexivity|]. intros path Hpath.
      by rewrite lookup_insert_ne.
  - exists (fs (env st)). by rewrite put_fs_id.
Qed.

Lemma dispatch_save_other_files (n : nat) (ws : list Worker) (st : State) :
  exists files,
    snd (dispatch (save n) ws st) = put_fs files st /\
    forall path, (forall r, path ≠ shard_file r) ->
                 files !! path = fs (env st) !! path.
Proof.
  revert st. induction ws as [|w ws IH]; intros st; cbn.
  - exists (fs (env st)). by rewrite put_fs_id.
  - destruct (save_other_files n w st) as (f1 & H1 & Hf1).
    destruct (save n w st) as [r st1]. cbn in H1. subst st1.
    destruct (IH (put_fs f1 st)) as (f2 & H2 & Hf2).
    destruct (dispatch (save n) ws (put_fs f1 st)) as [es st2].
    cbn in H2. subst st2. exists f2. split; [reflexivity|].
    intros path Hpath. rewrite Hf2 by exact Hpath. cbn. by apply Hf1.
Qed.

Lemma foreach_worker_save_other_files (n : nat) (include_self : bool)
    (st : State) :
  exists files,
    snd (foreach_worker (save n) include_self st) = put_fs files st /\
    forall path, (forall r, path ≠ shard_file r) ->
                 files !! path = fs (env st) !! path.
Proof.
  unfold foreach_worker.
  destruct (dispatch_save_other_files n (workers (env st)) st)
    as (f1 & H1 & Hf1).
  destruct (dispatch (save n) (workers (env st)) st) as [es st1].
  cbn in H1. subst st1.
  destruct es as [|e es]; [|by exists f1].
  destruct include_self; [|by exists f1].
  destruct (save_other_files n (owner (env (put_fs f1 st))) (put_fs f1 st))
    as (f2 & H2 & Hf2).
  rewrite H2. exists f2. split; [reflexivity|].
  intros path Hpath. rewrite Hf2 by exact Hpath. cbn. by apply Hf1.
Qed.

Lemma comprehension_load_exists (ranks : list nat) (st s : State)
    (ms : list Module) :
  comprehension (fun rank => torch_load (shard_file rank)) ranks st = (Ok ms, s) ->
  forall r, r ∈ ranks -> is_Some (fs (env st) !! shard_file r).
Proof.
  revert ms s. induction ranks as [|a ranks IH]; intros ms s Hrun r Hin;
    [by apply elem_of_nil in Hin|].
  cbn [comprehension] in Hrun.
  apply bind_ok_inv in Hrun as (m & s1 & Hload & Hrun).
  pose proof (torch_load_state (shard_file a) st) as Hst.
  rewrite Hload in Hst. cbn in Hst. subst s1.
  apply bind_ok_inv in Hrun as (ms' & s2 & Hrest & _).
  apply elem_of_cons in Hin as [->|Hin]; [|by apply (IH ms' s2)].
  unfold torch_load, bind, get in Hload.
  destruct (fs (env st) !! shard_file a); [by eexists|discriminate].
Qed.

(** ** Reloading *)

(** X15: the reload is all or nothing.  Either it raises and the state is
    the one it started from, or it returns the rebuilt module, every shard
    file of a rank below the count was there and is gone, and no other
    file has changed. *)
Theorem reload_sequential_all_or_nothing (n : nat) (st : State) :
  (exists e, reload_sequential no_params sequential_attr n st = (Raise e, st)) \/
  (exists seq files,
      reload_sequential no_params sequential_attr n st =
        (Ok seq, put_fs files st) /\
      (forall r, (r < n)%nat ->
                 is_Some (fs (env st) !! shard_file r) /\
                 files !! shard_file r = None) /\
      (forall path, (forall r, (r < n)%nat -> path ≠ shard_file r) ->
                    files !! path = fs (env st) !! path)).
Proof.
  pose proof (comprehension_load_state (seq 0 n) st) as Hst.
  destruct (comprehension (fun rank => torch_load (shard_file rank))
              (seq 0 n) st) as [[ms|e] s] eqn:Hload;
    cbn in Hst; subst s.
  2: { left. exists e. unfold reload_sequential. unfold bind at 1.
       by rewrite Hload. }
  destruct (add_all sequential_attr ms (Mod no_params [])) as [rebuilt|e]
    eqn:Hadd.
  2: { left. exists e. unfold reload_sequential. unfold bind at 1.
       rewrite Hload. unfold bind at 1, lift. by rewrite Hadd. }
  pose proof (comprehension_load_exists _ _ _ _ Hload) as Hex.
  destruct (comprehension_remove st (seq 0 n))
    as (us & files & Hrm & Hgone & Hkept); [apply NoDup_seq|exact Hex|].
  right. exists rebuilt, files. split; [|split].
  - unfold reload_sequential. unfold bind at 1. rewrite Hload.
    unfold bind at 1, lift. rewrite Hadd. unfold bind at 1. by rewrite Hrm.
  - intros r Hr. split; [apply Hex|apply Hgone]; apply elem_of_seq; lia.
  - intros path Hpath. apply Hkept. intros r Hin. apply Hpath.
    apply elem_of_seq in Hin. lia.
Qed.

Lemma od_set_keys {V} (k : string) (v : V) (d : list (string * V)) :
  NoDup d.*1 -> NoDup (od_set k v d).*1 /\
                (forall k', k' ∈ (od_set k v d).*1 -> k' = k \/ k' ∈ d.*1).
Proof.
  induction d as [|[k0 v0] d IH]; cbn; intros Hnd.
  - split; [apply NoDup_singleton|]. intros k' Hin.
    apply list_elem_of_singleton in Hin. by left.
  - apply NoDup_cons in Hnd as [Hk0 Hnd]. case_bool_decide as Heq; cbn.
    + subst k0. split; [by apply NoDup_cons|]. intros k' Hin. by right.
    + destruct (IH Hnd) as [Hnd' Hsub]. split.
      * apply NoDup_cons. split; [|exact Hnd'].
        intros Hin. destruct (Hsub _ Hin) as [->|Hin']; [done|by apply Hk0].
      * intros k' Hin. apply elem_of_cons in Hin as [->|Hin].
        -- right. apply list_elem_of_here.
        -- destruct (Hsub _ Hin) as [->|Hin']; [by left|].
           right. by apply list_elem_of_further.
Qed.

Lemma add_modules_keys (kids : list (string * Module)) (seq seq' : Module) :
  NoDup (named_children seq).*1 ->
  add_modules sequential_attr kids seq = Ok seq' ->
  NoDup (named_children seq').*1.
Proof.
  revert seq. induction kids as [|[name child] kids IH]; intros seq Hnd Hadd.
  - cbn in Hadd. by injection Hadd as <-.
  - cbn [add_modules] in Hadd.
    destruct (add_module sequential_attr name child seq) as [seq1|e] eqn:H1;
      [|discriminate].
    apply (IH seq1); [|exact Hadd].
    unfold add_module in H1.
    destruct (_ && _); [discriminate|].
    destruct (contains_dot name); [discriminate|].
    case_bool_decide; [discriminate|].
    destruct seq as [payload d]. injection H1 as <-. cbn in *.
    by apply od_set_keys.
Qed.

(** X16: whatever the shard files hold (children of one name in several
    shards, say), a module that the reload returns never has two children
    of the same name. *)
Theorem reload_sequential_distinct_names (n : nat) (st st' : State)
    (seq : Module) :
  reload_sequential no_params sequential_attr n st = (Ok seq, st') ->
  NoDup (named_children seq).*1.
Proof.
  intros Hrun. unfold reload_sequential in Hrun.
  apply bind_ok_inv in Hrun as (ms & s1 & _ & Hrun).
  apply bind_ok_inv in Hrun as (seq1 & s2 & Hadd & Hrun).
  apply bind_ok_inv in Hrun as (us & s3 & _ & Hrun).
  injection Hrun as <- _.
  unfold lift in Hadd. injection Hadd as Hadd _.
  clear -Hadd.
  assert (Hgen : forall (ms : list Module) (acc seq1 : Module),
    NoDup (named_children acc).*1 ->
    add_all sequential_attr ms acc = Ok seq1 ->
    NoDup (named_children seq1).*1).
  { clear. induction ms as [|m ms IH]; intros acc seq1 Hnd Hadd.
    - cbn in Hadd. by injection Hadd as <-.
    - cbn [add_all] in Hadd.
      destruct (add_modules sequential_attr (named_children m) acc)
        as [acc'|e] eqn:Hm; [|discriminate].
      apply (IH acc' seq1); [|exact Hadd].
      by apply (add_modules_keys (named_children m) acc). }
  apply (Hgen ms (Mod no_params [])); [apply NoDup_nil_2|exact Hadd].
Qed.

(** ** Saving through the plugin *)

Lemma rpc_save_model_to_callback (save_model_fn : string -> M Env unit)
    (last_filepath : string) (st st1 st2 : State) (n : nat)
    (current : Layers) (seq : Module) :
  has_foreach_worker (model (env st)) = true ->
  layers (the_pl_module (env st)) = Some current ->
  num_gpus_per_model (self st) = Some n ->
  foreach_worker (save n) true st = (Ok tt, st1) ->
  reload_sequential no_params sequential_attr n st1 = (Ok seq, st2) ->
  self st2 = self st /\ trace st2 = trace st /\
  rpc_save_model no_params sequential_attr save_model_fn last_filepath st =
    (call_save_model_fn save_model_fn last_filepath ;;;
     del_pl_layers ;;;
     set_pl_layers current)
      (set_env (update_pl_module (with_layers (Some (NNSequential seq)))) st2).
Proof.
  intros Hfw Hcur Hn Hsave Hreload.
  destruct (foreach_worker_save_frame n true st) as [f1 Hf1].
  rewrite Hsave in Hf1. cbn in Hf1. subst st1.
  destruct (reload_sequential_frame no_params sequential_attr n (put_fs f1 st))
    as [f2 Hf2].
  rewrite Hreload in Hf2. cbn in Hf2. subst st2.
  split; [reflexivity|]. split; [reflexivity|].
  unfold rpc_save_model. unfold bind at 1, get. rewrite Hfw.
  unfold bind at 1, get_pl_layers. unfold bind at 1, get. rewrite Hcur. cbn.
  unfold bind at 1, the_num_gpus_per_model. unfold bind at 1, get.
  rewrite Hn. cbn.
  unfold bind at 1. rewrite Hsave.
  unfold bind at 1. unfold bind at 1, get. cbn. rewrite Hn. cbn.
  unfold bind at 1. rewrite Hreload.
  unfold bind at 1. reflexivity.
Qed.

(** X17: when the checkpoint callback raises, the exception leaves
    [rpc_save_model] as it is: the layers are not put back (the module
    keeps what the callback last saw or made of them), and the state is
    the one the callback left, with the call recorded. *)
Theorem rpc_save_model_callback_raises (save_model_fn : string -> M Env unit)
    (last_filepath : string) (st st1 st2 : State) (n : nat) (seq : Module)
    (e : exn) (env' : Env) :
  has_foreach_worker (model (env st)) = true ->
  is_Some (layers (the_pl_module (env st))) ->
  num_gpus_per_model (self st) = Some n ->
  foreach_worker (save n) true st = (Ok tt, st1) ->
  reload_sequential no_params sequential_attr n st1 = (Ok seq, st2) ->
  save_model_fn last_filepath
    (update_pl_module (with_layers (Some (NNSequential seq))) (env st2)) =
    (Raise e, env') ->
  rpc_save_model no_params sequential_attr save_model_fn last_filepath st =
    (Raise e,
     {| self := self st; env := env';
        trace := trace st ++
          [SaveModelFn last_filepath (Some (NNSequential seq))] |}).
Proof.
  intros Hfw [current Hcur] Hn Hsave Hreload Hcall.
  destruct (rpc_save_model_to_callback save_model_fn last_filepath st st1 st2
              n current seq Hfw Hcur Hn Hsave Hreload) as (Hself & Htrace & ->).
  unfold bind at 1. unfold call_save_model_fn.
  unfold bind at 1, get. unfold bind at 1, modify. cbn.
  rewrite layers_update_pl_module, Hcall.
  unfold set_env, log_event. cbn. by rewrite Hself, Htrace.
Qed.

Lemma save_and_reload (st : State) (original : list (string * Module))
    (shards : list (list (string * Module))) :
  concat shards = original ->
  NoDup original.*1 ->
  Forall (registrable sequential_attr) original.*1 ->
  Forall (holds_shard shards) (workers (env st) ++ [owner (env st)]) ->
  (forall r, (r < length shards)%nat ->
             exists w, w ∈ workers (env st) ++ [owner (env st)] /\ rank w = r) ->
  exists st1 st2,
    foreach_worker (save (length shards)) true st = (Ok tt, st1) /\
    reload_sequential no_params sequential_attr (length shards) st1 =
      (Ok (Mod no_params original), st2).
Proof.
  intros Hconcat Hnd Hreg Hall Hcover.
  destruct (foreach_worker_save_conforming shards st Hall)
    as (f1 & Hsave & Hdisk).
  assert (Hfiles : Forall2 (shard_on_disk f1) (seq 0 (length shards)) shards).
  { apply Forall2_same_length_lookup_2; [by rewrite length_seq|].
    intros i r shard Hi Hs. apply lookup_seq in Hi as [-> Hlt].
    apply (Hdisk _ _ Hs). by apply Hcover. }
  destruct (comprehension_load_ok (put_fs f1 st) (seq 0 (length shards))
              shards Hfiles) as (ms & Hload & Hms).
  destruct (comprehension_remove (put_fs f1 st) (seq 0 (length shards)))
    as (us & f2 & Hrm & _ & _); [apply NoDup_seq| |].
  { intros r Hin. apply elem_of_seq in Hin.
    destruct (lookup_lt_is_Some_2 shards r) as [shard Hs]; [lia|].
    destruct (Hdisk r shard Hs) as (m & Hm & _); [apply Hcover; lia|].
    cbn. by rewrite Hm. }
  exists (put_fs f1 st), (put_fs f2 st). split; [exact Hsave|].
  unfold reload_sequential. unfold bind at 1. rewrite Hload.
  unfold bind at 1, lift.
  rewrite (add_all_concat sequential_attr ms no_params []);
    rewrite Hms, Hconcat; [|exact Hnd|exact Hreg].
  unfold bind at 1. rewrite Hrm. reflexivity.
Qed.

(** X18: end to end.  With the shards of the original held by the group,
    and a callback that accepts the rebuilt sequential module and leaves a
    [layers] attribute behind, [rpc_save_model] returns normally; the
    callback is called once, on a module whose children are the original
    ones; afterwards [layers] is the object it was before, and the plugin
    object is unchanged. *)
Theorem rpc_save_model_end_to_end (save_model_fn : string -> M Env unit)
    (last_filepath : string) (st : State) (current : Layers)
    (original : list (string * Module))
    (shards : list (list (string * Module))) :
  has_foreach_worker (model (env st)) = true ->
  layers (the_pl_module (env st)) = Some current ->
  num_gpus_per_model (self st) = Some (length shards) ->
  concat shards = original ->
  NoDup original.*1 ->
  Forall (registrable sequential_attr) original.*1 ->
  Forall (holds_shard shards) (workers (env st) ++ [owner (env st)]) ->
  (forall r, (r < length shards)%nat ->
             exists w, w ∈ workers (env st) ++ [owner (env st)] /\ rank w = r) ->
  (forall e0 : Env,
      layers (the_pl_module e0) = Some (NNSequential (Mod no_params original)) ->
      exists e1, save_model_fn last_filepath e0 = (Ok tt, e1) /\
                 is_Some (layers (the_pl_module e1))) ->
  exists st',
    rpc_save_model no_params sequential_attr save_model_fn last_filepath st =
      (Ok tt, st') /\
    layers (the_pl_module (env st')) = Some current /\
    trace st' =
      trace st ++
      [SaveModelFn last_filepath (Some (NNSequential (Mod no_params original)))] /\
    self st' = self st.
Proof.
  intros Hfw Hcur Hn Hconcat Hnd Hreg Hall Hcover Hcb.
  destruct (save_and_reload st original shards Hconcat Hnd Hreg Hall Hcover)
    as (st1 & st2 & Hsave & Hreload).
  destruct (rpc_save_model_to_callback save_model_fn last_filepath st st1 st2
              (length shards) current (Mod no_params original)
              Hfw Hcur Hn Hsave Hreload) as (Hself & Htrace & ->).
  destruct (Hcb (update_pl_module
                   (with_layers (Some (NNSequential (Mod no_params original))))
                   (env st2))) as (e1 & Hcall & [l Hl]);
    [apply layers_update_pl_module|].
  eexists. split.
  - unfold bind at 1. unfold call_save_model_fn.
    unfold bind at 1, get. unfold bind at 1, modify. cbn.
    rewrite layers_update_pl_module, Hcall. cbn.
    unfold bind at 1. unfold del_pl_layers.
    unfold bind at 1. unfold get_pl_layers. unfold bind at 1, get. cbn.
    rewrite Hl. cbn. reflexivity.
  - unfold set_env, log_event. cbn.
    rewrite layers_update_pl_module, Hself, Htrace. done.
Qed.

Lemma dispatch_save_idle (n : nat) (ws : list Worker) (st : State) :
  Forall (fun w => (n <= rank w)%nat) ws ->
  dispatch (save n) ws st = ([], st).
Proof.
  induction 1 as [|w ws Hw _ IH]; [reflexivity|].
  cbn [dispatch]. unfold save at 1.
  rewrite bool_decide_eq_false_2 by lia. unfold ret. by rewrite IH.
Qed.

(** X19: a group whose ranks all lie beyond the shard count (a second
    replica of the pipeline, whose processes have the global ranks N and
    up) writes no shard file, so that in a directory without the file of
    rank 0 the save raises and changes nothing. *)
Theorem rpc_save_model_ranks_beyond (save_model_fn : string -> M Env unit)
    (last_filepath : string) (st : State) (n : nat) :
  has_foreach_worker (model (env st)) = true ->
  is_Some (layers (the_pl_module (env st))) ->
  num_gpus_per_model (self st) = Some n ->
  (0 < n)%nat ->
  Forall (fun w => (n <= rank w)%nat) (workers (env st) ++ [owner (env st)]) ->
  fs (env st) !! "seq_0.pt" = None ->
  rpc_save_model no_params sequential_attr save_model_fn last_filepath st =
    (Raise (FileNotFoundError "seq_0.pt"), st).
Proof.
  intros Hfw [current Hcur] Hn Hpos Hranks Hfile.
  apply Forall_app in Hranks as [Hws Hown]. rewrite Forall_singleton in Hown.
  assert (Hsave : foreach_worker (save n) true st = (Ok tt, st)).
  { unfold foreach_worker. rewrite (dispatch_save_idle n _ st Hws).
    unfold save. by rewrite bool_decide_eq_false_2 by lia. }
  unfold rpc_save_model. unfold bind at 1, get. rewrite Hfw.
  unfold bind at 1, get_pl_layers. unfold bind at 1, get. rewrite Hcur. cbn.
  unfold bind at 1, the_num_gpus_per_model. unfold bind at 1, get.
  rewrite Hn. cbn.
  unfold bind at 1. rewrite Hsave.
  unfold bind at 1. unfold bind at 1, get. cbn. rewrite Hn. cbn.
  unfold bind at 1. unfold reload_sequential. unfold bind at 1.
  destruct n as [|n]; [lia|]. cbn [seq comprehension].
  unfold bind at 1. unfold torch_load at 1. unfold bind at 1, get.
  change (shard_file 0) with "seq_0.pt". by rewrite Hfile.
Qed.

(** X20: saving the shards and reloading them changes nothing but the
    working directory, and there only files named like shard files. *)
Theorem save_reload_other_files (n : nat) (include_self : bool)
    (st st1 st2 : State) (r : result unit) (seq : Module) :
  foreach_worker (save n) include_self st = (r, st1) ->
  reload_sequential no_params sequential_attr n st1 = (Ok seq, st2) ->
  st2 = put_fs (fs (env st2)) st /\
  forall path, (forall k, path ≠ shard_file k) ->
               fs (env st2) !! path = fs (env st) !! path.
Proof.
  intros Hsave Hreload.
  destruct (foreach_worker_save_other_files n include_self st)
    as (f1 & Hf1 & Hkeep1).
  rewrite Hsave in Hf1. cbn in Hf1. subst st1.
  unfold reload_sequential in Hreload.
  apply bind_ok_inv in Hreload as (ms & s1 & Hload & Hreload).
  pose proof (comprehension_load_state (List.seq 0 n) (put_fs f1 st)) as Hs1.
  rewrite Hload in Hs1. cbn in Hs1. subst s1.
  apply bind_ok_inv in Hreload as (rebuilt & s2 & Hadd & Hreload).
  injection Hadd as _ <-.
  apply bind_ok_inv in Hreload as (us & s3 & Hrm & Hreload).
  injection Hreload as _ <-.
  destruct (comprehension_remove (put_fs f1 st) (List.seq 0 n))
    as (us' & f2 & Hrm' & _ & Hkeep2);
    [apply NoDup_seq|exact (comprehension_load_exists _ _ _ _ Hload)|].
  rewrite Hrm in Hrm'. injection Hrm' as _ ->.
  split; [reflexivity|].
  intros path Hpath. cbn. rewrite Hkeep2 by (intros k _; apply Hpath).
  cbn. by apply Hkeep1.
Qed.

End Checkpoints.

Section Wrapping.

Context {Params Closure Input Engine : Type}.

Local Abbreviation PipeArgs := (PipeArgs (Params := Params)).
Local Abbreviation PipeModule := (PipeModule (Engine := Engine)).
Local Abbreviation WState :=
  (State (Params := Params) (PipeObj := PipeModule) (Closure := Closure)
     (Input := Input)).

Variable pipe_cls : PipeArgs -> string + Engine.
Variable world_size : nat.

Lemma get_worker_map_keys (n : nat) :
  ((fun rank => (rank, "worker" +:+ pretty rank)) <$> seq 0 n).*1 = seq 0 n.
Proof.
  rewrite <- list_fmap_compose.
  rewrite (list_fmap_ext _ id); [apply list_fmap_id|]. by intros i r _.
Qed.

(** X21: the worker map names exactly the ranks below the world size, the
    rank [r] as "worker" followed by [r] in decimal, and no two ranks get
    the same name. *)
Theorem get_worker_map_spec (n : nat) :
  (forall rank,
      get_worker_map n !! rank =
        if bool_decide (rank < n)%nat then Some ("worker" +:+ pretty rank)
        else None) /\
  (forall r1 r2 name,
      get_worker_map n !! r1 = Some name ->
      get_worker_map n !! r2 = Some name -> r1 = r2).
Proof.
  assert (Hlookup : forall rank,
    get_worker_map n !! rank =
      if bool_decide (rank < n)%nat then Some ("worker" +:+ pretty rank)
      else None).
  { intros rank. unfold get_worker_map. case_bool_decide as Hlt.
    - apply elem_of_list_to_map_1.
      + rewrite get_worker_map_keys. apply NoDup_seq.
      + apply list_elem_of_fmap. exists rank. split; [reflexivity|].
        apply elem_of_seq. lia.
    - apply not_elem_of_list_to_map_1. rewrite get_worker_map_keys.
      intros Hin. apply elem_of_seq in Hin. lia. }
  split; [exact Hlookup|].
  intros r1 r2 name H1 H2. rewrite Hlookup in H1, H2.
  repeat case_bool_decide; try discriminate.
  rewrite <- H2 in H1. apply (inj Some) in H1.
  apply (inj (String.app "worker")) in H1. by apply (inj pretty) in H1.
Qed.

(** X22: the wrap and the check of connection setup agree on what a
    missing model is: [_find_pipe_module] raises the missing-model error,
    changing nothing, exactly when [_check_sequential_model_exists] does. *)
Theorem find_pipe_module_agrees (st : WState) :
  _find_pipe_module pipe_cls world_size st =
    (Raise sequential_model_missing, st) <->
  _check_sequential_model_exists st = (Raise sequential_model_missing, st).
Proof.
  unfold _find_pipe_module, _check_sequential_model_exists, _init_pipe,
    bind, get, lift, modify, raise, ret.
  destruct (layers (model (env st))) as [[seq|pipe]|]; cbn; [|done|done].
  destruct (pipe_cls _); cbn; split; discriminate.
Qed.

(** X23: a wrap that returns normally has found a sequential [layers] and
    has put in its place the wrapper built by the engine class from that
    module, the balance, microbatch count and checkpoint policy of the
    plugin, the device of the process's own rank and the worker map of the
    whole world; the model then has [foreach_worker], nothing else has
    changed, and a second wrap finds no sequential model any more. *)
Theorem find_pipe_module_wraps_once (st st' : WState) :
  _find_pipe_module pipe_cls world_size st = (Ok tt, st') ->
  (exists seq engine,
      layers (model (env st)) = Some (NNSequential seq) /\
      pipe_cls {| arg_module := seq; arg_balance := balance (self st);
                  arg_chunks := microbatches (self st);
                  arg_style := MultiProcess;
                  arg_input_device := rank (owner (env st));
                  arg_worker_map := get_worker_map world_size;
                  arg_checkpoint := checkpoint (self st) |} = inr engine /\
      layers (model (env st')) =
        Some (LightningPipeModule
                {| lpm_module := engine; lpm_balance := balance (self st);
                   lpm_microbatches := microbatches (self st);
                   lpm_checkpoint := checkpoint (self st) |})) /\
  has_foreach_worker (model (env st')) = true /\
  example_input_array (model (env st')) = example_input_array (model (env st)) /\
  self st' = self st /\ trace st' = trace st /\ fs (env st') = fs (env st) /\
  _find_pipe_module pipe_cls world_size st' =
    (Raise sequential_model_missing, st').
Proof.
  unfold _find_pipe_module at 1. unfold _init_pipe, bind, get, lift, modify.
  destruct (layers (model (env st))) as [[seq|pipe]|] eqn:Hl; cbn;
    [|discriminate|discriminate].
  destruct (pipe_cls _) as [msg|engine] eqn:Hcls; cbn; [discriminate|].
  intros [= <-]. split; [by exists seq, engine|].
  repeat split.
Qed.

End Wrapping.

(** * The further properties on the concrete deployment *)

(** X2: world size 3 against the two-entry balance. *)
Lemma init_model_parallel_groups_rejects_scenario :
  init_model_parallel_groups 3 Scenario.unwrapped =
    (Raise AssertionError,
     set_self (with_num_gpus_per_model 2) Scenario.unwrapped).
Proof.
  apply (init_model_parallel_groups_rejects 3 Scenario.unwrapped [2; 1]).
  - reflexivity.
  - discriminate.
  - vm_compute. discriminate.
Defined.

(** X3: a trainer in automatic optimization. *)
Lemma init_distributed_connection_guarded_scenario :
  exists msg,
    init_distributed_connection Scenario.no_strategy
      Scenario.super_init_distributed_connection
      Scenario.super_init_rpc_connection Scenario.trainer_automatic 0 2 true
      Scenario.unwrapped =
    (Raise (MisconfigurationException msg), Scenario.unwrapped).
Proof.
  apply (init_distributed_connection_guarded Scenario.no_strategy
           Scenario.super_init_distributed_connection
           Scenario.super_init_rpc_connection Scenario.trainer_automatic
           0 2 true Scenario.unwrapped).
  left. reflexivity.
Defined.

(** X4: the process of rank 1, testing, with the connection up. *)
Lemma init_distributed_connection_skipped_scenario :
  init_distributed_connection Scenario.no_strategy
    Scenario.super_init_distributed_connection
    Scenario.super_init_rpc_connection (Scenario.trainer_testing 1) 1 2 true
    (Scenario.connected Scenario.unwrapped) =
  (Ok tt,
   set_self (with_main_rpc_process (bool_decide ((1 : Z) ≠ 0)))
     (Scenario.connected Scenario.unwrapped)).
Proof.
  apply (init_distributed_connection_skipped Scenario.no_strategy
           Scenario.super_init_distributed_connection
           Scenario.super_init_rpc_connection (Scenario.trainer_testing 1)
           1 2 true (Scenario.connected Scenario.unwrapped));
    reflexivity.
Defined.

(** X5: the balance [2, 1] against four layers passes a first setup. *)
Lemma init_distributed_connection_unflagged_scenario :
  sum [2; 1] ≠ 4 /\
  fst (init_distributed_connection Scenario.no_strategy
         Scenario.super_init_distributed_connection
         Scenario.super_init_rpc_connection Scenario.trainer 0 2 true
         Scenario.unwrapped_four) = Ok tt.
Proof.
  split; [discriminate|].
  rewrite (init_distributed_connection_unflagged Scenario.no_strategy
             Scenario.super_init_distributed_connection
             Scenario.super_init_rpc_connection Scenario.trainer 0 2 true
             Scenario.unwrapped_four
             (Scenario.connected Scenario.unwrapped_four)
             (Scenario.connected Scenario.unwrapped_four)
             (snd (init_model_parallel_groups 2
                     (Scenario.connected Scenario.unwrapped_four)))).
  - reflexivity.
  - reflexivity.
  - reflexivity.
  - reflexivity.
  - reflexivity.
  - reflexivity.
  - vm_compute. reflexivity.
  - reflexivity.
Defined.

(** X6: the same mismatch is reported once the flag is set. *)
Lemma init_distributed_connection_flagged_scenario :
  fst (init_distributed_connection Scenario.no_strategy
         Scenario.super_init_distributed_connection
         Scenario.super_init_rpc_connection Scenario.trainer 0 2 true
         (Scenario.flagged Scenario.unwrapped_four)) =
  Raise (MisconfigurationException
    "The provided balance sum: 3 doesn t match your Sequential length: 4").
Proof.
  rewrite (init_distributed_connection_flagged Scenario.no_strategy
             Scenario.super_init_distributed_connection
             Scenario.super_init_rpc_connection Scenario.trainer 0 2 true
             (Scenario.flagged Scenario.unwrapped_four)
             (Scenario.connected (Scenario.flagged Scenario.unwrapped_four))
             (Scenario.connected (Scenario.flagged Scenario.unwrapped_four))
             (snd (init_model_parallel_groups 2
                     (Scenario.connected
                        (Scenario.flagged Scenario.unwrapped_four))))
             [2; 1]).
  - vm_compute. reflexivity.
  - reflexivity.
  - reflexivity.
  - reflexivity.
  - reflexivity.
  - reflexivity.
  - vm_compute. reflexivity.
  - reflexivity.
  - reflexivity.
Defined.

(** X7: the plugin object with its balance taken away. *)
Lemma init_distributed_connection_without_balance_scenario :
  init_distributed_connection Scenario.no_strategy
    Scenario.super_init_distributed_connection
    Scenario.super_init_rpc_connection Scenario.trainer 0 2 true
    (Scenario.without_balance Scenario.unwrapped) =
  (Raise TypeError,
   Scenario.connected (Scenario.without_balance Scenario.unwrapped)).
Proof.
  apply (init_distributed_connection_without_balance Scenario.no_strategy
           Scenario.super_init_distributed_connection
           Scenario.super_init_rpc_connection Scenario.trainer 0 2 true
           (Scenario.without_balance Scenario.unwrapped)
           (Scenario.connected (Scenario.without_balance Scenario.unwrapped)));
    reflexivity.
Defined.

(** X8: a successful setup on rank 1, and a rejected one on world size 3. *)
Lemma init_distributed_connection_flag_scenario :
  main_rpc_process
    (self (snd (init_distributed_connection Scenario.no_strategy
                  Scenario.super_init_distributed_connection
                  Scenario.super_init_rpc_connection
                  (Scenario.trainer_testing 1) 1 2 true Scenario.unwrapped))) =
    true /\
  main_rpc_process
    (self (snd (init_distributed_connection Scenario.no_strategy
                  Scenario.super_init_distributed_connection
                  Scenario.super_init_rpc_connection
                  (Scenario.trainer_testing 1) 1 3 true Scenario.unwrapped))) =
    false.
Proof.
  split.
  - rewrite (init_distributed_connection_flag Scenario.no_strategy
               Scenario.super_init_distributed_connection
               Scenario.super_init_rpc_connection
               (Scenario.trainer_testing 1) 1 2 true Scenario.unwrapped
               _ (Ok tt)).
    + reflexivity.
    + intros s. reflexivity.
    + intros s. reflexivity.
    + vm_compute. reflexivity.
  - rewrite (init_distributed_connection_flag Scenario.no_strategy
               Scenario.super_init_distributed_connection
               Scenario.super_init_rpc_connection
               (Scenario.trainer_testing 1) 1 3 true Scenario.unwrapped
               _ (Raise AssertionError)).
    + reflexivity.
    + intros s. reflexivity.
    + intros s. reflexivity.
    + vm_compute. reflexivity.
Defined.

(** X10: the trainer has one optimizer, the stray one has index 3. *)
Lemma optimizer_step_unregistered_scenario :
  exists st1,
    on_after_setup_optimizers Scenario.trainer Scenario.wrapped = (Ok tt, st1) /\
    optimizer_step Scenario.stray_optimizer 5%nat st1 = (Raise KeyError, st1).
Proof.
  apply (optimizer_step_unregistered Scenario.trainer Scenario.wrapped
           Scenario.stray_optimizer 5%nat).
  cbn. lia.
Defined.




(** X14: the ranks 1 and 10. *)
Lemma shard_files_distinct_scenario : shard_file 1 ≠ shard_file 10.
Proof. apply (shard_files_distinct 1 10). lia. Defined.

(** X16: two shards with a child named "0": the rebuilt module has two
    children, not three. *)
Lemma reload_sequential_distinct_names_scenario :
  reload_sequential 0 Scenario.sequential_attr 2
    (snd (foreach_worker (save 2) true Scenario.renumbered)) =
    (Ok (Mod 0 [("0", Scenario.leaf 12); ("1", Scenario.leaf 11)]),
     Scenario.renumbered) /\
  NoDup (named_children
           (Mod 0 [("0", Scenario.leaf 12); ("1", Scenario.leaf 11)])).*1.
Proof.
  assert (Hrun : reload_sequential 0 Scenario.sequential_attr 2
                   (snd (foreach_worker (save 2) true Scenario.renumbered)) =
                 (Ok (Mod 0 [("0", Scenario.leaf 12); ("1", Scenario.leaf 11)]),
                  Scenario.renumbered)).
  { vm_compute. reflexivity. }
  split; [exact Hrun|].
  exact (reload_sequential_distinct_names 0 Scenario.sequential_attr 2 _ _ _ Hrun).
Defined.

(** X17: a callback that fails leaves the rebuilt module in [layers]. *)
Lemma rpc_save_model_callback_raises_scenario :
  fst (rpc_save_model 0 Scenario.sequential_attr Scenario.failing_checkpoint
         "last.ckpt" Scenario.wrapped) = Raise (LibraryError "disk full") /\
  layers (the_pl_module
            (env (snd (rpc_save_model 0 Scenario.sequential_attr
                         Scenario.failing_checkpoint "last.ckpt"
                         Scenario.wrapped)))) =
    Some (NNSequential (Mod 0 Scenario.original)).
Proof.
  rewrite (rpc_save_model_callback_raises 0 Scenario.sequential_attr
             Scenario.failing_checkpoint "last.ckpt" Scenario.wrapped
             (snd (foreach_worker (save 2) true Scenario.wrapped))
             Scenario.wrapped 2 (Mod 0 Scenario.original)
             (LibraryError "disk full")
             (update_pl_module
                (with_layers (Some (NNSequential (Mod 0 Scenario.original))))
                (env Scenario.wrapped))).
  - split; reflexivity.
  - reflexivity.
  - by eexists.
  - reflexivity.
  - vm_compute. reflexivity.
  - vm_compute. reflexivity.
  - reflexivity.
Defined.

(** X18: the save of the deployment, with the callback that writes. *)
Lemma rpc_save_model_end_to_end_scenario :
  exists st',
    rpc_save_model 0 Scenario.sequential_attr Scenario.write_checkpoint
      "last.ckpt" Scenario.wrapped = (Ok tt, st') /\
    layers (the_pl_module (env st')) = Some (LightningPipeModule 1%nat) /\
    trace st' =
      trace Scenario.wrapped ++
      [SaveModelFn "last.ckpt" (Some (NNSequential (Mod 0 Scenario.original)))] /\
    self st' = self Scenario.wrapped.
Proof.
  apply (rpc_save_model_end_to_end 0 Scenario.sequential_attr
           Scenario.write_checkpoint "last.ckpt" Scenario.wrapped
           (LightningPipeModule 1%nat) Scenario.original Scenario.shards).
  - reflexivity.
  - reflexivity.
  - reflexivity.
  - reflexivity.
  - apply (bool_decide_unpack _). vm_compute. exact I.
  - repeat constructor; vm_compute; discriminate.
  - repeat constructor; intros shard H; vm_compute in H; injection H as <-;
      eexists; split; reflexivity.
  - intros [|[|r]] Hr; [| |cbn in Hr; lia].
    + exists (owner (env Scenario.wrapped)). split; [|reflexivity].
      apply list_elem_of_further, list_elem_of_here.
    + exists (Scenario.worker 1 [("2", Scenario.leaf 12)] Scenario.optimizer1).
      split; [apply list_elem_of_here|reflexivity].
  - intros e0 He0. unfold Scenario.write_checkpoint. rewrite He0.
    eexists. split; [reflexivity|].
    unfold the_pl_module in *. cbn. rewrite He0. by eexists.
Defined.

(** X19: the replica of ranks 2 and 3. *)
Lemma rpc_save_model_ranks_beyond_scenario :
  rpc_save_model 0 Scenario.sequential_attr Scenario.write_checkpoint
    "last.ckpt" Scenario.second_replica =
    (Raise (FileNotFoundError "seq_0.pt"), Scenario.second_replica).
Proof.
  apply (rpc_save_model_ranks_beyond 0 Scenario.sequential_attr
           Scenario.write_checkpoint "last.ckpt" Scenario.second_replica 2).
  - reflexivity.
  - by eexists.
  - reflexivity.
  - lia.
  - repeat constructor; cbn; lia.
  - reflexivity.
Defined.

(** X20: the log file survives the round trip. *)
Lemma save_reload_other_files_scenario :
  fs (env (snd (reload_sequential 0 Scenario.sequential_attr 2
                  (snd (foreach_worker (save 2) true Scenario.with_log)))))
    !! "train.log" = Some Garbage.
Proof.
  destruct (save_reload_other_files 0 Scenario.sequential_attr 2 true
              Scenario.with_log
              (snd (foreach_worker (save 2) true Scenario.with_log))
              (snd (reload_sequential 0 Scenario.sequential_attr 2
                      (snd (foreach_worker (save 2) true Scenario.with_log))))
              (Ok tt) (Mod 0 Scenario.original)) as [_ Hkeep].
  - vm_compute. reflexivity.
  - vm_compute. reflexivity.
  - rewrite Hkeep; [reflexivity|].
    intros k Heq. apply (f_equal (fun s => String.get 0 s)) in Heq.
    discriminate.
Defined.

(** X23: the wrap of the deployment, in a world of two processes. *)
Lemma find_pipe_module_wraps_once_scenario :
  has_foreach_worker
    (model (env (snd (_find_pipe_module Scenario.pipe_cls 2 Scenario.to_wrap)))) =
    true /\
  _find_pipe_module Scenario.pipe_cls 2
    (snd (_find_pipe_module Scenario.pipe_cls 2 Scenario.to_wrap)) =
    (Raise sequential_model_missing,
     snd (_find_pipe_module Scenario.pipe_cls 2 Scenario.to_wrap)).
Proof.
  destruct (find_pipe_module_wraps_once Scenario.pipe_cls 2 Scenario.to_wrap
              (snd (_find_pipe_module Scenario.pipe_cls 2 Scenario.to_wrap)))
    as (_ & Hfw & _ & _ & _ & _ & Hagain).
  - vm_compute. reflexivity.
  - split; [exact Hfw|exact Hagain].
Defined.
